(** * recipe-api, user app: serializers

    A shallow embedding of [app/user/serializers.py] (the two serializer
    classes [UserSerializer] and [AuthTokenSerializer]) together with the
    part of the hosting framework that gives the class declarations their
    meaning, and the properties the specification states about them.

    Layout:
    - Python data: strings, dictionaries, the user entity;
    - the collaborators the serializers call, as constructors of a small
      program monad, and the interpreter that runs a program against a table
      of users while logging every collaborator call;
    - the framework's [CharField] and serializer pipeline;
    - the two serializers, translated from the source;
    - the three endpoints [user:create], [user:token] and [user:me], as the
      specification describes them (the serializers module does not define
      them);
    - fixtures taken from the tests of the app;
    - the theorems. *)

From Stdlib Require Import Ascii String.
From stdpp Require Import base option list strings gmap.

Set Default Proof Using "Type".
Open Scope string_scope.

(** ** Python strings

    A Python [str] is modelled by [string], one [ascii] per character (code
    points below 256).  [len] is [String.length]. *)

(** [str.isspace] on one character: the code points below 256 that Python
    treats as whitespace are 9..13, 28..32, 133 and 160. *)
Definition py_isspace (c : ascii) : bool :=
  let n := nat_of_ascii c in
  (((9 <=? n) && (n <=? 13)) || ((28 <=? n) && (n <=? 32))
   || (n =? 133) || (n =? 160))%nat.

Fixpoint lstrip (s : string) : string :=
  match s with
  | EmptyString => EmptyString
  | String c s' => if py_isspace c then lstrip s' else s
  end.

Fixpoint rstrip (s : string) : string :=
  match s with
  | EmptyString => EmptyString
  | String c s' =>
      match rstrip s' with
      | EmptyString => if py_isspace c then EmptyString else String c EmptyString
      | r => String c r
      end
  end.

(** [str.strip()] with no argument. *)
Definition strip (s : string) : string := rstrip (lstrip s).

(** A lazily translated string, [ugettext_lazy(msgid)]: the proxy keeps the
    message id and renders it in the locale active when it is displayed. *)
Inductive lazystr : Type :=
| ugettext_lazy (msgid : string).

Global Instance lazystr_eq_dec : EqDecision lazystr.
Proof. solve_decision. Defined.

(** ** The user entity *)

Module User.
(** The persisted user of the specification's data model: [password]
    holds what the storage keeps in the password column. *)
Record t : Type := mk { email : string; password : string; name : string }.

Global Instance eq_dec : EqDecision t.
Proof. solve_decision. Defined.
End User.

(** The table of users, in insertion order; the primary key of a row is its
    position. *)
Abbreviation table := (list User.t).

(** ** Values and dictionaries *)

(** What a request carries for a key: a JSON string or null.  These are the
    values the properties below speak of; a JSON number, which a [CharField]
    turns into text with [str], and a boolean, an array or an object, which
    it rejects as invalid, are outside this type. *)
Inductive jsonval : Type :=
| JNull
| JStr (s : string).

(** The Python values the serializers put in their dictionaries. *)
Inductive pyval : Type :=
| PyNone
| PyStr (s : string)
| PyUser (u : User.t).

Global Instance jsonval_eq_dec : EqDecision jsonval.
Proof. solve_decision. Defined.
Global Instance pyval_eq_dec : EqDecision pyval.
Proof. solve_decision. Defined.

(** [d.get(k)]: the entry, [None] when the key is absent. *)
Definition dict_get (d : gmap string pyval) (k : string) : pyval :=
  default PyNone (d !! k).

(** ** Requests *)

Inductive Method : Type := GET | POST | PATCH.

Global Instance Method_eq_dec : EqDecision Method.
Proof. solve_decision. Defined.

Module Request.
(** An HTTP request after the framework's middleware ran: [user] is the
    primary key the authentication middleware resolved for the caller,
    [None] for an anonymous caller. *)
Record t : Type := mk {
  method : Method;
  data : gmap string jsonval;
  user : option nat
}.

Global Instance eq_dec : EqDecision t.
Proof. solve_decision. Defined.
End Request.

(** ** Validation errors *)

(** [rest_framework.exceptions.ErrorDetail]: a message and its code. *)
Record ErrorDetail : Type := mkErrorDetail {
  message : lazystr;
  code : string
}.

Global Instance ErrorDetail_eq_dec : EqDecision ErrorDetail.
Proof. solve_decision. Defined.

(** [serializers.ValidationError]: its detail is a list of errors, or a
    dictionary of such lists keyed by field name. *)
Inductive ValidationError : Type :=
| ErrorList (detail : list ErrorDetail)
| ErrorDict (detail : gmap string (list ErrorDetail)).

(** [serializers.ValidationError(msg, code=c)]. *)
Definition ValidationError_ (msg : lazystr) (c : string) : ValidationError :=
  ErrorList [mkErrorDetail msg c].

(** ** Programs over the external collaborators

    The serializers call two collaborators of the framework:
    [django.contrib.auth.authenticate] and the user manager's [create_user];
    the generic update calls the instance's [save].  A program is a tree
    of such calls ending in a value or in a raised [ValidationError];
    [Query] stands for the read-only look-ups the framework makes itself
    (uniqueness checks, loading the caller's row). *)

Inductive prog (A : Type) : Type :=
| Ret (a : A)
| Raise (e : ValidationError)
| Authenticate (request : option Request.t) (username password : pyval)
    (k : option User.t → prog A)
| CreateUser (kwargs : gmap string pyval) (k : User.t → prog A)
| Save (pk : nat) (instance : User.t) (k : unit → prog A)
| Query (k : table → prog A).

Arguments Ret {A} a.
Arguments Raise {A} e.
Arguments Authenticate {A} request username password k.
Arguments CreateUser {A} kwargs k.
Arguments Save {A} pk instance k.
Arguments Query {A} k.

Fixpoint bind {A B} (p : prog A) (f : A → prog B) : prog B :=
  match p with
  | Ret a => f a
  | Raise e => Raise e
  | Authenticate r u pw k => Authenticate r u pw (λ x, bind (k x) f)
  | CreateUser kw k => CreateUser kw (λ x, bind (k x) f)
  | Save pk i k => Save pk i (λ x, bind (k x) f)
  | Query k => Query (λ x, bind (k x) f)
  end.

(** [try: p  except ValidationError as e: h e]. *)
Fixpoint try_except {A} (p : prog A) (h : ValidationError → prog A) : prog A :=
  match p with
  | Ret a => Ret a
  | Raise e => h e
  | Authenticate r u pw k => Authenticate r u pw (λ x, try_except (k x) h)
  | CreateUser kw k => CreateUser kw (λ x, try_except (k x) h)
  | Save pk i k => Save pk i (λ x, try_except (k x) h)
  | Query k => Query (λ x, try_except (k x) h)
  end.

Global Instance prog_ret : MRet prog := @Ret.
Global Instance prog_bind : MBind prog := λ A B f p, bind p f.

(** One logged collaborator call, with the arguments it received. *)
Inductive call : Type :=
| authenticate_call (request : option Request.t) (username password : pyval)
| create_user_call (kwargs : gmap string pyval)
| save_call (pk : nat) (instance : User.t).

Global Instance call_eq_dec : EqDecision call.
Proof. solve_decision. Defined.

(** The outcome of running a program: what it returned or raised, the table
    afterwards, and the collaborator calls in the order they were made. *)
Record outcome (A : Type) : Type := mkOutcome {
  result : ValidationError + A;
  final : table;
  calls : list call
}.
Arguments mkOutcome {A} result final calls.
Arguments result {A} o.
Arguments final {A} o.
Arguments calls {A} o.

Definition logged {A} (c : call) (o : outcome A) : outcome A :=
  mkOutcome (result o) (final o) (c :: calls o).

(** The string a keyword argument holds, [''] when it holds none. *)
Definition kwarg_str (kwargs : gmap string pyval) (k : string) : string :=
  match kwargs !! k with
  | Some (PyStr s) => s
  | _ => ""
  end.

(** The collaborators outside the repository. *)
Class Collaborators : Type := {
  (** [django.contrib.auth.authenticate]: it may consult the table, and
      resolves a user or nothing; it is taken as a look-up, which leaves the
      table as it is. *)
  authenticate : table → option Request.t → pyval → pyval → option User.t;
  (** The password hasher of the storage collaborator, *)
  make_password : string → string;
  (** and [check_password raw encoded]. *)
  check_password : string → string → bool;
  (** The key of the token the token store holds (or creates) for a user. *)
  token_key : User.t → string
}.

Section Run.
Context `{Collaborators}.

(** Modelled from the spec: the user manager's [create_user], which comes
    with the user model and is defined outside the serializers module; the
    "create user with hashed password" operation: it stores a new record
    holding the email, the name and the hash of the password, and returns
    it. *)
Definition create_user (db : table) (kwargs : gmap string pyval)
  : User.t * table :=
  let u := User.mk (kwarg_str kwargs "email")
                   (make_password (kwarg_str kwargs "password"))
                   (kwarg_str kwargs "name") in
  (u, (db ++ [u])%list).

(** [instance.save()] on the row [pk]. *)
Definition save (db : table) (pk : nat) (instance : User.t) : table :=
  <[pk := instance]> db.

Fixpoint run {A} (p : prog A) (db : table) : outcome A :=
  match p with
  | Ret a => mkOutcome (inr a) db []
  | Raise e => mkOutcome (inl e) db []
  | Authenticate r u pw k =>
      logged (authenticate_call r u pw) (run (k (authenticate db r u pw)) db)
  | CreateUser kw k =>
      let '(u, db') := create_user db kw in
      logged (create_user_call kw) (run (k u) db')
  | Save pk i k =>
      logged (save_call pk i) (run (k ()) (save db pk i))
  | Query k => run (k db) db
  end.
End Run.

(** ** The framework's fields

    [rest_framework.fields.CharField] with the options the two serializers
    set or inherit, and the generic serializer pipeline around it. *)

(** A validator looks at a value, and may look at the table and at the
    primary key of the instance under update; it yields the errors it
    raises. *)
Definition validator : Type := table → option nat → string → list ErrorDetail.

Record CharField : Type := mkCharField {
  required : bool;
  allow_null : bool;
  allow_blank : bool;
  trim_whitespace : bool;
  max_length : option nat;
  min_length : option nat;
  write_only : bool;
  validators : list validator
}.

(** Validators that are declared outside the serializers module. *)
Class Declarations : Type := {
  (** the character validators the running framework version adds to every
      [CharField] (null characters, surrogates), *)
  char_validators : string → list ErrorDetail;
  (** the validators the user model declares for a field (its format and
      its maximal length). *)
  model_validators : string → string → list ErrorDetail
}.

(** What [Field.run_validation] amounts to for one field: a value, a
    [ValidationError], or [SkipField]. *)
Inductive field_result : Type :=
| SkipField
| Invalid (errors : list ErrorDetail)
| Valid (value : pyval).

(** [self.fail(key)] with the framework's message for that key. *)
Definition fail (key : string) : field_result :=
  let msgid :=
    if decide (key = "required") then "This field is required."
    else if decide (key = "null") then "This field may not be null."
    else if decide (key = "blank") then "This field may not be blank."
    else "Not a valid string." in
  Invalid [mkErrorDetail (ugettext_lazy msgid) key].

Definition MaxLengthValidator (limit : nat) (value : string) : list ErrorDetail :=
  if (limit <? String.length value)%nat
  then [mkErrorDetail
          (ugettext_lazy "Ensure this field has no more than {max_length} characters.")
          "max_length"]
  else [].

Definition MinLengthValidator (limit : nat) (value : string) : list ErrorDetail :=
  if (String.length value <? limit)%nat
  then [mkErrorDetail
          (ugettext_lazy "Ensure this field has at least {min_length} characters.")
          "min_length"]
  else [].

(** [UniqueValidator(queryset=User.objects.all())] on one attribute:
    [queryset.filter(attr=value)], without the instance under update, must
    be empty. *)
Fixpoint exists_other (attr : User.t → string) (value : string)
    (instance : option nat) (pk : nat) (rows : table) : bool :=
  match rows with
  | [] => false
  | u :: rows' =>
      (bool_decide (instance ≠ Some pk) && bool_decide (attr u = value))
      || exists_other attr value instance (S pk) rows'
  end.

Definition UniqueValidator (attr : User.t → string) : validator :=
  λ db instance value,
    if exists_other attr value instance 0 db
    then [mkErrorDetail
            (ugettext_lazy "%(model_name)s with this %(field_label)s already exists.")
            "unique"]
    else [].

Section Fields.
Context `{Declarations}.

(** [serializers.CharField()] with every option at its default. *)
Definition CharField_ : CharField :=
  {| required := true; allow_null := false; allow_blank := false;
     trim_whitespace := true; max_length := None; min_length := None;
     write_only := false; validators := [] |}.

(** [Field.run_validators]: every validator runs, the errors add up.  The
    validators passed to the field come first, then the ones [CharField]
    appends for its length options and for characters. *)
Definition run_validators (f : CharField) (db : table) (instance : option nat)
    (value : string) : list ErrorDetail :=
  (concat (map (λ v : validator, v db instance value) (validators f))
   ++ from_option (λ n, MaxLengthValidator n value) [] (max_length f)
   ++ from_option (λ n, MinLengthValidator n value) [] (min_length f)
   ++ char_validators value)%list.

(** [CharField.run_validation] on what [field.get_value] found in the
    request ([None]: the key is absent).  The blank test comes first, then
    the empty values, then [to_internal_value] (which strips when
    [trim_whitespace] is set) and the validators. *)
Definition run_validation (f : CharField) (partial : bool) (db : table)
    (instance : option nat) (data : option jsonval) : field_result :=
  match data with
  | Some (JStr s) =>
      if bool_decide (s = "")
         || (trim_whitespace f && bool_decide (strip s = ""))
      then (if allow_blank f then Valid (PyStr "") else fail "blank")
      else
        let value := if trim_whitespace f then strip s else s in
        match run_validators f db instance value with
        | [] => Valid (PyStr value)
        | errors => Invalid errors
        end
  | Some JNull => if allow_null f then Valid PyNone else fail "null"
  | None =>
      if partial then SkipField
      else if required f then fail "required"
      else SkipField
  end.

(** The loop of [Serializer.to_internal_value] over the declared fields:
    the errors by field name, and the validated values. *)
Fixpoint collect (fields : list (string * CharField)) (partial : bool)
    (db : table) (instance : option nat) (data : gmap string jsonval)
    : gmap string (list ErrorDetail) * gmap string pyval :=
  match fields with
  | [] => (∅, ∅)
  | (field_name, f) :: fields' =>
      let '(errors, ret) := collect fields' partial db instance data in
      match run_validation f partial db instance (data !! field_name) with
      | SkipField => (errors, ret)
      | Invalid e => (<[field_name := e]> errors, ret)
      | Valid v => (errors, <[field_name := v]> ret)
      end
  end.

Definition to_internal_value (fields : list (string * CharField))
    (partial : bool) (instance : option nat) (data : gmap string jsonval)
    : prog (gmap string pyval) :=
  Query (λ db,
    let '(errors, ret) := collect fields partial db instance data in
    if decide (errors = ∅) then Ret ret else Raise (ErrorDict errors)).

(** [as_serializer_error]: a list of errors goes under
    ['non_field_errors']. *)
Definition as_serializer_error (exc : ValidationError) : ValidationError :=
  match exc with
  | ErrorList detail => ErrorDict {[ "non_field_errors" := detail ]}
  | ErrorDict detail => ErrorDict detail
  end.

(** [Serializer.run_validation]: the fields, then the serializer's own
    [validate]. *)
Definition Serializer_run_validation (fields : list (string * CharField))
    (validate : gmap string pyval → prog (gmap string pyval))
    (partial : bool) (instance : option nat) (data : gmap string jsonval)
    : prog (gmap string pyval) :=
  value ← to_internal_value fields partial instance data;
  try_except (validate value) (λ exc, Raise (as_serializer_error exc)).

(** [getattr(instance, name)] and [setattr(instance, name, value)] on a
    user. *)
Definition getattr (instance : User.t) (attr : string) : pyval :=
  if decide (attr = "email") then PyStr (User.email instance)
  else if decide (attr = "password") then PyStr (User.password instance)
  else if decide (attr = "name") then PyStr (User.name instance)
  else PyNone.

Definition setattr (instance : User.t) (attr : string) (value : pyval)
    : User.t :=
  match value with
  | PyStr s =>
      if decide (attr = "email")
      then User.mk s (User.password instance) (User.name instance)
      else if decide (attr = "password")
      then User.mk (User.email instance) s (User.name instance)
      else if decide (attr = "name")
      then User.mk (User.email instance) (User.password instance) s
      else instance
  | _ => instance
  end.

(** [Serializer.to_representation]: one entry per readable field, that
    is per field that is not write-only. *)
Fixpoint to_representation (fields : list (string * CharField))
    (instance : User.t) : gmap string pyval :=
  match fields with
  | [] => ∅
  | (field_name, f) :: fields' =>
      if write_only f then to_representation fields' instance
      else <[field_name := getattr instance field_name]>
             (to_representation fields' instance)
  end.

(** [ModelSerializer.update]: assign every validated entry to the
    instance, in the order of the fields, and save it. *)
Definition assign (validated_data : gmap string pyval)
    (instance : User.t) (field : string * CharField) : User.t :=
  match validated_data !! field.1 with
  | Some value => setattr instance field.1 value
  | None => instance
  end.

Definition ModelSerializer_update (fields : list (string * CharField))
    (pk : nat) (instance : User.t) (validated_data : gmap string pyval)
    : prog User.t :=
  let instance' := foldl (assign validated_data) instance fields in
  Save pk instance' (λ _, Ret instance').
End Fields.

(** ** The serializers of [app/user/serializers.py] *)

(** Truth value of what [authenticate] returns: [None] is false, a user
    object (a model instance defines neither [__bool__] nor [__len__]) is
    true. *)
Definition truthy (user : option User.t) : bool :=
  match user with
  | None => false
  | Some _ => true
  end.

(** The Python value of what [authenticate] returns. *)
Definition user_value (user : option User.t) : pyval :=
  match user with
  | None => PyNone
  | Some u => PyUser u
  end.

Module UserSerializer.
Module Meta.
Definition fields : list string := ["email"; "password"; "name"].

(** ['password': {'write_only': True, 'min_length': 6}], as the change
    these keyword arguments make to the field built from the model. *)
Definition extra_kwargs : gmap string (CharField → CharField) :=
  {[ "password" := λ f : CharField,
       {| required := required f; allow_null := allow_null f;
          allow_blank := allow_blank f;
          trim_whitespace := trim_whitespace f;
          max_length := max_length f;
          min_length := Some 6;
          write_only := true;
          validators := validators f |} ]}.
End Meta.

Section WithDeclarations.
Context `{Declarations}.

(** Modelled from the spec: the user model behind [get_user_model()],
    defined outside the serializers module: email, password and name are
    required text attributes, and the email uniquely identifies a user. *)
Definition model_field (field_name : string) : CharField :=
  {| required := true; allow_null := false; allow_blank := false;
     trim_whitespace := true; max_length := None; min_length := None;
     write_only := false;
     validators :=
       (λ _ _ value, model_validators field_name value)
         :: (if decide (field_name = "email")
             then [UniqueValidator User.email] else []) |}.

(** [ModelSerializer.build_field] with [include_extra_kwargs]. *)
Definition build_field (field_name : string) : CharField :=
  default id (Meta.extra_kwargs !! field_name) (model_field field_name).

Definition fields : list (string * CharField) :=
  map (λ field_name, (field_name, build_field field_name)) Meta.fields.
End WithDeclarations.

(** [validate] is not overridden: it returns the attributes. *)
Definition validate (attrs : gmap string pyval) : prog (gmap string pyval) :=
  Ret attrs.

(** [create]: the manager's [create_user], called with the entries of
    [validated_data] as its keyword arguments; its result is returned. *)
Definition create (validated_data : gmap string pyval) : prog User.t :=
  CreateUser validated_data Ret.

(** [serializer.validated_data] after [is_valid(raise_exception=True)], for
    a serializer made with [data], with [partial], and with the instance
    whose primary key is [instance], if any. *)
Definition validated_data `{Declarations} (partial : bool)
    (instance : option nat) (data : gmap string jsonval)
    : prog (gmap string pyval) :=
  Serializer_run_validation fields validate partial instance data.
End UserSerializer.

Module AuthTokenSerializer.
Section WithDeclarations.
Context `{Declarations}.

Definition email : CharField := CharField_.

Definition password : CharField :=
  {| required := true; allow_null := false; allow_blank := false;
     trim_whitespace := false; max_length := None; min_length := None;
     write_only := false; validators := [] |}.

Definition fields : list (string * CharField) :=
  [("email", email); ("password", password)].
End WithDeclarations.

Definition msg : lazystr :=
  ugettext_lazy "Unable to authenticate, check your credentials".

(** [validate(self, attrs)], with [self.context] as [context]. *)
Definition validate (context : gmap string Request.t)
    (attrs : gmap string pyval) : prog (gmap string pyval) :=
  let email := dict_get attrs "email" in
  let password := dict_get attrs "password" in
  Authenticate (context !! "request") email password (λ user,
    if negb (truthy user)
    then Raise (ValidationError_ msg "authentication")
    else Ret (<["user" := user_value user]> attrs)).

(** [serializer.validated_data] after [is_valid(raise_exception=True)], for
    a serializer made with [data] and [context]. *)
Definition validated_data `{Declarations} (context : gmap string Request.t)
    (data : gmap string jsonval) : prog (gmap string pyval) :=
  Serializer_run_validation fields (validate context) false None data.
End AuthTokenSerializer.

(** ** Responses and endpoints *)

(** The body of a response: serializer data, the detail of a validation
    error, or the framework's one-entry [{'detail': ...}] body of an API
    exception, kept by its code. *)
Inductive body : Type :=
| Data (d : gmap string pyval)
| Errors (exc : ValidationError)
| Detail (code : string).

Module Response.
Record t : Type := mk { status_code : nat; data : body }.
End Response.

(** [key in res.data]. *)
Definition body_contains (b : body) (key : string) : Prop :=
  match b with
  | Data d => is_Some (d !! key)
  | Errors (ErrorDict d) => is_Some (d !! key)
  | Errors (ErrorList _) => False
  | Detail _ => key = "detail"
  end.

Definition HTTP_200_OK : nat := 200.
Definition HTTP_201_CREATED : nat := 201.
Definition HTTP_400_BAD_REQUEST : nat := 400.
Definition HTTP_401_UNAUTHORIZED : nat := 401.
Definition HTTP_405_METHOD_NOT_ALLOWED : nat := 405.
Definition HTTP_500_INTERNAL_SERVER_ERROR : nat := 500.

Section Endpoints.
Context `{Collaborators} `{Declarations}.

(** A raised [ValidationError] becomes a 400 response that carries its
    detail. *)
Definition bad_request (exc : ValidationError) : prog Response.t :=
  Ret (Response.mk HTTP_400_BAD_REQUEST (Errors exc)).

Definition method_not_allowed : prog Response.t :=
  Ret (Response.mk HTTP_405_METHOD_NOT_ALLOWED (Detail "method_not_allowed")).

(** Modelled from the spec: the create-user endpoint [user:create] (the
    views are defined outside the serializers module).  "Create user: request
    {email, password, name} → response 201 with {email, name} (password
    excluded); 400 if email already exists or password < 6 characters":
    the request data is validated by [UserSerializer], a valid payload
    goes to [UserSerializer.create], and the response body is the
    serializer's representation of the created user. *)
Definition create_view (request : Request.t) : prog Response.t :=
  match Request.method request with
  | POST =>
      try_except
        (validated_data ←
           UserSerializer.validated_data false None (Request.data request);
         instance ← UserSerializer.create validated_data;
         Ret (Response.mk HTTP_201_CREATED
                (Data (to_representation UserSerializer.fields instance))))
        bad_request
  | _ => method_not_allowed
  end.

(** Modelled from the spec: the token endpoint [user:token].  "Obtain
    token: request {email, password} → response 200 with {token}; 400 if
    credentials invalid or user absent; only POST allowed (GET → 405)":
    the request data is validated by [AuthTokenSerializer], whose context
    holds the request, and the token of the user found under ['user'] is
    returned. *)
Definition token_view (request : Request.t) : prog Response.t :=
  match Request.method request with
  | POST =>
      try_except
        (validated_data ←
           AuthTokenSerializer.validated_data {[ "request" := request ]}
             (Request.data request);
         match validated_data !! "user" with
         | Some (PyUser u) =>
             Ret (Response.mk HTTP_200_OK
                    (Data {[ "token" := PyStr (token_key u) ]}))
         | _ =>
             Ret (Response.mk HTTP_500_INTERNAL_SERVER_ERROR
                    (Detail "error"))
         end)
        bad_request
  | _ => method_not_allowed
  end.

(** Modelled from the spec: the profile endpoint [user:me].  "Profile:
    GET → 200 {name, email} for authenticated caller only (401 if not
    authenticated); PATCH updates {name, password}; POST not allowed
    (405)", and "update is delegated entirely to generic framework
    behavior (partial field assignment)": the caller's row is the
    instance, GET represents it with [UserSerializer], PATCH validates
    the request data as a partial update and hands it to the generic
    [ModelSerializer_update]. *)
Definition me_view (request : Request.t) : prog Response.t :=
  Query (λ db,
    match Request.user request with
    | Some pk =>
        match db !! pk with
        | Some instance =>
            match Request.method request with
            | GET =>
                Ret (Response.mk HTTP_200_OK
                       (Data (to_representation UserSerializer.fields instance)))
            | PATCH =>
                try_except
                  (validated_data ←
                     UserSerializer.validated_data true (Some pk)
                       (Request.data request);
                   instance' ←
                     ModelSerializer_update UserSerializer.fields pk
                       instance validated_data;
                   Ret (Response.mk HTTP_200_OK
                          (Data (to_representation UserSerializer.fields
                                   instance'))))
                  bad_request
            | POST => method_not_allowed
            end
        | None =>
            Ret (Response.mk HTTP_401_UNAUTHORIZED (Detail "not_authenticated"))
        end
    | None =>
        Ret (Response.mk HTTP_401_UNAUTHORIZED (Detail "not_authenticated"))
    end).
End Endpoints.

(** ** Fixtures

    Concrete collaborators and the data of the repository's tests, to run
    the model on. *)

Module Fixture.
(** A stand-in hasher: it tags the raw password. *)
Definition hasher (raw : string) : string := "pbkdf2_sha256$" +:+ raw.

Definition checker (raw encoded : string) : bool :=
  bool_decide (encoded = hasher raw).

(** A stand-in for the model backend: the first user with that email,
    when the password checks against the stored hash. *)
Definition backend (db : table) (request : option Request.t)
    (username password : pyval) : option User.t :=
  match username, password with
  | PyStr e, PyStr raw =>
      match List.find (λ u, bool_decide (User.email u = e)) db with
      | Some u => if checker raw (User.password u) then Some u else None
      | None => None
      end
  | _, _ => None
  end.

Definition collaborators : Collaborators :=
  {| authenticate := backend;
     make_password := hasher;
     check_password := checker;
     token_key := λ u, "token-" +:+ User.email u |}.

(** No validators beyond the ones the serializers declare. *)
Definition declarations : Declarations :=
  {| char_validators := λ _, []; model_validators := λ _ _, [] |}.

(** The user of [PrivateUserApiTests.setUp], as stored. *)
Definition stored_user : User.t :=
  User.mk "test@gmail.com" (hasher "testpw1") "Testname".

(** The payload of [test_create_valid_user_successful]. *)
Definition payload : gmap string jsonval :=
  {[ "email" := JStr "test@gmail.com"; "password" := JStr "testpw1";
     "name" := JStr "test_name" ]}.

(** The payload of [test_create_token_no_user]. *)
Definition no_user : gmap string jsonval :=
  {[ "email" := JStr "invalid@gmail.com"; "password" := JStr "testpw" ]}.

(** The payload of [test_create_token_for_user]. *)
Definition credentials : gmap string jsonval :=
  {[ "email" := JStr "test@gmail.com"; "password" := JStr "testpw1" ]}.

(** The payload of [test_password_too_short]. *)
Definition too_short : gmap string jsonval :=
  {[ "email" := JStr "test1@gmail.com"; "password" := JStr "short";
     "name" := JStr "test_name" ]}.

(** The payload of [test_update_user_profile]. *)
Definition update : gmap string jsonval :=
  {[ "name" := JStr "new name"; "password" := JStr "newpassword1" ]}.
End Fixture.

(** * Properties *)

(** ** Stripping never lengthens a string *)

Lemma length_lstrip (s : string) :
  (String.length (lstrip s) ≤ String.length s)%nat.
Proof.
  induction s as [|c s IH]; simpl; [lia|].
  destruct (py_isspace c); simpl; lia.
Qed.

Lemma length_rstrip (s : string) :
  (String.length (rstrip s) ≤ String.length s)%nat.
Proof.
  induction s as [|c s IH]; simpl; [lia|].
  destruct (rstrip s) as [|c' r]; simpl in *.
  - destruct (py_isspace c); simpl; lia.
  - lia.
Qed.

Lemma length_strip (s : string) :
  (String.length (strip s) ≤ String.length s)%nat.
Proof.
  unfold strip. etrans; [apply length_rstrip | apply length_lstrip].
Qed.

(** ** Running programs *)

Section RunLaws.
Context `{Collaborators}.

(** Sequencing: the second program starts on the table the first one left,
    and the calls of both are logged in order; a raised error ends the
    run. *)
Lemma run_bind {A B} (p : prog A) (f : A → prog B) (db : table) :
  run (p ≫= f) db =
    match result (run p db) with
    | inl exc => mkOutcome (inl exc) (final (run p db)) (calls (run p db))
    | inr a =>
        let o := run (f a) (final (run p db)) in
        mkOutcome (result o) (final o) (calls (run p db) ++ calls o)
    end.
Proof.
  unfold mbind, prog_bind. revert db.
  induction p as [a|exc|r u pw k IH|kw k IH|pk i k IH|k IH]; intros db; simpl.
  - by destruct (run (f a) db).
  - done.
  - rewrite IH. by destruct (result (run (k _) db)).
  - rewrite IH. by destruct (result (run (k _) _)).
  - rewrite IH. by destruct (result (run (k _) _)).
  - apply IH.
Qed.

(** Handling: the handler runs where the error was raised. *)
Lemma run_try_except {A} (p : prog A) (h : ValidationError → prog A)
    (db : table) :
  run (try_except p h) db =
    match result (run p db) with
    | inl exc =>
        let o := run (h exc) (final (run p db)) in
        mkOutcome (result o) (final o) (calls (run p db) ++ calls o)
    | inr a => run p db
    end.
Proof.
  revert db.
  induction p as [a|exc|r u pw k IH|kw k IH|pk i k IH|k IH]; intros db; simpl.
  - done.
  - by destruct (run (h exc) db).
  - rewrite IH. by destruct (result (run (k _) db)).
  - rewrite IH. by destruct (result (run (k _) _)).
  - rewrite IH. by destruct (result (run (k _) _)).
  - apply IH.
Qed.
End RunLaws.

(** ** The serializer pipeline *)

Section Pipeline.
Context `{Collaborators} `{Declarations}.

(** A field that fails leaves an error under its name. *)
Lemma collect_invalid fields partial db instance data field_name f e :
  (field_name, f) ∈ fields →
  run_validation f partial db instance (data !! field_name) = Invalid e →
  is_Some ((collect fields partial db instance data).1 !! field_name).
Proof.
  intros Hin Hf.
  induction fields as [|[n' f'] fields IH]; [by apply elem_of_nil in Hin|].
  simpl. destruct (collect fields partial db instance data) as [errors ret] eqn:Hc.
  apply elem_of_cons in Hin as [Heq|Hin].
  - injection Heq as <- <-. rewrite Hf. simpl. rewrite lookup_insert_eq. eauto.
  - specialize (IH Hin). simpl in IH.
    destruct (run_validation f' partial db instance (data !! n')); simpl; [done| |done].
    destruct (decide (n' = field_name)) as [->|Hne].
    + rewrite lookup_insert_eq. eauto.
    + by rewrite lookup_insert_ne.
Qed.

(** Errors and values only ever sit under the names of declared fields. *)
Lemma collect_keys fields partial db instance data key :
  key ∉ fields.*1 →
  (collect fields partial db instance data).1 !! key = None
  ∧ (collect fields partial db instance data).2 !! key = None.
Proof.
  induction fields as [|[n' f'] fields IH]; simpl; [done|].
  intros Hnot. apply not_elem_of_cons in Hnot as [Hne Hnot].
  destruct (IH Hnot) as [IH1 IH2].
  destruct (collect fields partial db instance data) as [errors ret].
  simpl in *.
  destruct (run_validation f' partial db instance (data !! n')); simpl;
    rewrite ?lookup_insert_ne; auto.
Qed.

Lemma run_to_internal_value fields partial instance data db :
  run (to_internal_value fields partial instance data) db =
    if decide ((collect fields partial db instance data).1 = ∅)
    then mkOutcome (inr (collect fields partial db instance data).2) db []
    else mkOutcome (inl (ErrorDict (collect fields partial db instance data).1)) db [].
Proof.
  unfold to_internal_value. simpl.
  destruct (collect fields partial db instance data) as [errors ret]. simpl.
  by destruct (decide (errors = ∅)).
Qed.

(** [Serializer.run_validation]: field errors end the validation before
    [validate] runs; an error of [validate] is reported as a serializer
    error. *)
Lemma run_Serializer_run_validation fields validate partial instance data db :
  run (Serializer_run_validation fields validate partial instance data) db =
    if decide ((collect fields partial db instance data).1 = ∅)
    then
      let o := run (validate (collect fields partial db instance data).2) db in
      mkOutcome
        (match result o with
         | inl exc => inl (as_serializer_error exc)
         | inr value => inr value
         end) (final o) (calls o)
    else mkOutcome (inl (ErrorDict (collect fields partial db instance data).1)) db [].
Proof.
  unfold Serializer_run_validation.
  rewrite run_bind, run_to_internal_value.
  destruct (decide _) as [He|He]; simpl; [|done].
  rewrite run_try_except.
  destruct (run (validate _) db) as [[exc|value] db' cs]; simpl.
  - by rewrite app_nil_r.
  - done.
Qed.
End Pipeline.

(** ** What the endpoints compute *)

Section EndpointRuns.
Context `{Collaborators} `{Declarations}.

Lemma run_create_view request db :
  Request.method request = POST →
  let c := collect UserSerializer.fields false db None (Request.data request) in
  run (create_view request) db =
    if decide (c.1 = ∅)
    then
      let u := (create_user db c.2).1 in
      mkOutcome
        (inr (Response.mk HTTP_201_CREATED
                (Data (to_representation UserSerializer.fields u))))
        (db ++ [u])%list [create_user_call c.2]
    else
      mkOutcome (inr (Response.mk HTTP_400_BAD_REQUEST (Errors (ErrorDict c.1))))
        db [].
Proof.
  intros Hm c. unfold create_view, UserSerializer.validated_data. rewrite Hm.
  rewrite run_try_except, run_bind, run_Serializer_run_validation.
  fold c. destruct (decide (c.1 = ∅)); done.
Qed.

Lemma run_token_view request db :
  Request.method request = POST →
  let c := collect AuthTokenSerializer.fields false db None (Request.data request) in
  let email := dict_get c.2 "email" in
  let password := dict_get c.2 "password" in
  run (token_view request) db =
    if decide (c.1 = ∅)
    then
      match authenticate db (Some request) email password with
      | Some u =>
          mkOutcome
            (inr (Response.mk HTTP_200_OK
                    (Data {[ "token" := PyStr (token_key u) ]})))
            db [authenticate_call (Some request) email password]
      | None =>
          mkOutcome
            (inr (Response.mk HTTP_400_BAD_REQUEST
                    (Errors (ErrorDict
                       {[ "non_field_errors" :=
                            [mkErrorDetail AuthTokenSerializer.msg
                               "authentication"] ]}))))
            db [authenticate_call (Some request) email password]
      end
    else
      mkOutcome (inr (Response.mk HTTP_400_BAD_REQUEST (Errors (ErrorDict c.1))))
        db [].
Proof.
  intros Hm c email password.
  unfold token_view, AuthTokenSerializer.validated_data. rewrite Hm.
  rewrite run_try_except, run_bind, run_Serializer_run_validation.
  fold c. destruct (decide (c.1 = ∅)); [|done].
  simpl. rewrite lookup_singleton_eq. fold email password.
  destruct (authenticate db (Some request) email password) as [u|]; simpl.
  - by rewrite lookup_insert_eq.
  - done.
Qed.

Lemma run_me_view_anonymous request db :
  Request.user request ≫= (λ pk, db !! pk) = None →
  run (me_view request) db =
    mkOutcome
      (inr (Response.mk HTTP_401_UNAUTHORIZED (Detail "not_authenticated")))
      db [].
Proof.
  intros Hu. unfold me_view. simpl.
  destruct (Request.user request) as [pk|]; simpl in *; [|done].
  by rewrite Hu.
Qed.

Lemma run_me_view_get request db pk instance :
  Request.user request = Some pk → db !! pk = Some instance →
  Request.method request = GET →
  run (me_view request) db =
    mkOutcome
      (inr (Response.mk HTTP_200_OK
              (Data (to_representation UserSerializer.fields instance))))
      db [].
Proof.
  intros Hu Hi Hm. unfold me_view. simpl. by rewrite Hu, Hi, Hm.
Qed.

Lemma run_me_view_patch request db pk instance :
  Request.user request = Some pk → db !! pk = Some instance →
  Request.method request = PATCH →
  let c := collect UserSerializer.fields true db (Some pk) (Request.data request) in
  run (me_view request) db =
    if decide (c.1 = ∅)
    then
      let instance' := foldl (assign c.2) instance UserSerializer.fields in
      mkOutcome
        (inr (Response.mk HTTP_200_OK
                (Data (to_representation UserSerializer.fields instance'))))
        (save db pk instance') [save_call pk instance']
    else
      mkOutcome (inr (Response.mk HTTP_400_BAD_REQUEST (Errors (ErrorDict c.1))))
        db [].
Proof.
  intros Hu Hi Hm c. unfold me_view, UserSerializer.validated_data.
  cbn [run]. rewrite Hu, Hi, Hm.
  rewrite run_try_except, run_bind, run_Serializer_run_validation.
  fold c. destruct (decide (c.1 = ∅)); done.
Qed.
End EndpointRuns.

(** ** The declared fields *)

Section DeclaredFields.
Context `{Declarations}.

Lemma build_field_email :
  UserSerializer.build_field "email" =
    {| required := true; allow_null := false; allow_blank := false;
       trim_whitespace := true; max_length := None; min_length := None;
       write_only := false;
       validators := [(λ _ _ value, model_validators "email" value);
                      UniqueValidator User.email] |}.
Proof. reflexivity. Qed.

Lemma build_field_password :
  UserSerializer.build_field "password" =
    {| required := true; allow_null := false; allow_blank := false;
       trim_whitespace := true; max_length := None; min_length := Some 6;
       write_only := true;
       validators := [λ _ _ value, model_validators "password" value] |}.
Proof. reflexivity. Qed.

Lemma build_field_name :
  UserSerializer.build_field "name" =
    {| required := true; allow_null := false; allow_blank := false;
       trim_whitespace := true; max_length := None; min_length := None;
       write_only := false;
       validators := [λ _ _ value, model_validators "name" value] |}.
Proof. reflexivity. Qed.

Lemma UserSerializer_fields :
  UserSerializer.fields =
    [("email", UserSerializer.build_field "email");
     ("password", UserSerializer.build_field "password");
     ("name", UserSerializer.build_field "name")].
Proof. reflexivity. Qed.

(** The representation of a user: the readable fields are the email and
    the name. *)
Lemma to_representation_user (instance : User.t) :
  to_representation UserSerializer.fields instance =
    {[ "email" := PyStr (User.email instance);
       "name" := PyStr (User.name instance) ]}.
Proof. reflexivity. Qed.

(** A value on which some validator raises an error does not pass. *)
Lemma run_validators_invalid (errors : list ErrorDetail) (err : ErrorDetail)
    (value : pyval) :
  err ∈ errors →
  ∃ e, match errors with [] => Valid value | e0 :: l => Invalid (e0 :: l) end
       = Invalid e.
Proof.
  destruct errors; [by intros ?%elem_of_nil|]. by eexists.
Qed.

(** A password of fewer than 6 characters never passes its field. *)
Lemma password_too_short partial db instance (p : string) :
  (String.length p < 6)%nat →
  ∃ e, run_validation (UserSerializer.build_field "password") partial db
         instance (Some (JStr p)) = Invalid e.
Proof.
  intros Hlen. rewrite build_field_password. unfold run_validation. simpl.
  destruct (bool_decide (p = "") || bool_decide (strip p = "")); [by eexists|].
  eapply run_validators_invalid.
  unfold run_validators, MinLengthValidator. simpl.
  pose proof (length_strip p) as Hs.
  destruct (Nat.ltb_spec (String.length (strip p)) 6) as [_|Hge]; [|lia].
  rewrite !elem_of_app, elem_of_cons. eauto.
Qed.

(** The token serializer's password field hands on what it was given. *)
Lemma token_password_verbatim partial db instance (p : string) value :
  run_validation AuthTokenSerializer.password partial db instance
    (Some (JStr p)) = Valid value →
  value = PyStr p.
Proof.
  unfold run_validation. simpl. rewrite orb_false_r.
  case_bool_decide; [done|].
  destruct (run_validators _ _ _ _); [|done]. by intros [= <-].
Qed.

Lemma token_password_accepted partial db instance (p : string) :
  p ≠ "" → char_validators p = [] →
  run_validation AuthTokenSerializer.password partial db instance
    (Some (JStr p)) = Valid (PyStr p).
Proof.
  intros Hp Hv. unfold run_validation. simpl. rewrite orb_false_r.
  rewrite bool_decide_eq_false_2 by done.
  unfold run_validators. simpl. by rewrite Hv.
Qed.

(** The token serializer's email field strips what it was given. *)
Lemma token_email_stripped partial db instance (e : string) value :
  run_validation AuthTokenSerializer.email partial db instance
    (Some (JStr e)) = Valid value →
  value = PyStr (strip e).
Proof.
  unfold run_validation. simpl.
  destruct (bool_decide (e = "") || bool_decide (strip e = "")); [done|].
  destruct (run_validators _ _ _ _); [|done]. by intros [= <-].
Qed.

(** When the two fields of a token request pass, the attributes handed to
    [validate] are the stripped email and the password as sent. *)
Lemma collect_token_fields db data (e p : string) :
  data !! "email" = Some (JStr e) →
  data !! "password" = Some (JStr p) →
  let c := collect AuthTokenSerializer.fields false db None data in
  c.1 = ∅ →
  c.2 = {[ "email" := PyStr (strip e); "password" := PyStr p ]}.
Proof.
  intros He Hp. simpl. rewrite He, Hp.
  destruct (run_validation AuthTokenSerializer.password false db None
              (Some (JStr p))) as [|errs|v] eqn:Hpw;
  destruct (run_validation AuthTokenSerializer.email false db None
              (Some (JStr e))) as [|errs'|v'] eqn:Hem; simpl;
    intros Hempty; try (by apply insert_non_empty in Hempty).
  - unfold run_validation in Hpw. simpl in Hpw.
    repeat case_match; done.
  - unfold run_validation in Hpw. simpl in Hpw.
    repeat case_match; done.
  - unfold run_validation in Hem. simpl in Hem.
    repeat case_match; done.
  - apply token_password_verbatim in Hpw as ->.
    apply token_email_stripped in Hem as ->. done.
Qed.
End DeclaredFields.

(** ** [AuthTokenSerializer] *)

Lemma dict_get_email (a b : pyval) :
  dict_get {[ "email" := a; "password" := b ]} "email" = a.
Proof. unfold dict_get. by simplify_map_eq. Qed.

Lemma dict_get_password (a b : pyval) :
  dict_get {[ "email" := a; "password" := b ]} "password" = b.
Proof. unfold dict_get. by simplify_map_eq. Qed.

Section AuthToken.
Context `{Collaborators} `{Declarations}.

Lemma collect_token_password db data (p : string) :
  data !! "password" = Some (JStr p) →
  let c := collect AuthTokenSerializer.fields false db None data in
  c.1 = ∅ → c.2 !! "password" = Some (PyStr p).
Proof.
  intros Hp. simpl. rewrite Hp.
  destruct (run_validation AuthTokenSerializer.password false db None
              (Some (JStr p))) as [|errs|v] eqn:Hpw.
  - unfold run_validation in Hpw. simpl in Hpw. repeat case_match; done.
  - destruct (run_validation AuthTokenSerializer.email _ _ _ _); simpl;
      intros Hempty; by apply insert_non_empty in Hempty.
  - apply token_password_verbatim in Hpw as ->.
    destruct (run_validation AuthTokenSerializer.email _ _ _ _); simpl;
      intros Hempty; try (by apply insert_non_empty in Hempty);
      by simplify_map_eq.
Qed.

(** C1.  [AuthTokenSerializer.validate] raises exactly when [authenticate]
    resolves no user: then, and only then, it raises the validation error
    with the message 'Unable to authenticate, check your credentials' and
    the code 'authentication'; and a token request whose credentials
    resolve no user is answered 400 with a body that holds no token. *)
Theorem validate_raises_iff_no_user
    (context : gmap string Request.t) (attrs : gmap string pyval) (db : table) :
  let user := authenticate db (context !! "request")
                (dict_get attrs "email") (dict_get attrs "password") in
  let o := run (AuthTokenSerializer.validate context attrs) db in
  (user = None →
     result o =
       inl (ValidationError_
              (ugettext_lazy "Unable to authenticate, check your credentials")
              "authentication"))
  ∧ (∀ exc, result o = inl exc → user = None)
  ∧ (∀ request (e p : string),
       Request.method request = POST →
       Request.data request !! "email" = Some (JStr e) →
       Request.data request !! "password" = Some (JStr p) →
       authenticate db (Some request) (PyStr (strip e)) (PyStr p) = None →
       ∃ detail,
         result (run (token_view request) db)
           = inr (Response.mk HTTP_400_BAD_REQUEST (Errors detail))
         ∧ ¬ body_contains (Errors detail) "token").
Proof.
  intros user o. subst o. unfold AuthTokenSerializer.validate. simpl.
  fold user. split_and!.
  - by intros ->.
  - intros exc. by destruct user.
  - intros request e p Hm He Hp Hauth.
    rewrite run_token_view by done.
    destruct (decide _) as [Hempty|Herr].
    + rewrite (collect_token_fields db _ e p He Hp Hempty).
      rewrite dict_get_email, dict_get_password, Hauth.
      eexists. split; [done|]. simpl. intros [x Hx]. by simplify_map_eq.
    + eexists. split; [done|]. intros [x Hx].
      pose proof (collect_keys AuthTokenSerializer.fields false db None
                    (Request.data request) "token") as [Hk _].
      { cbn. rewrite !not_elem_of_cons. split_and!; try done.
        apply not_elem_of_nil. }
      rewrite Hk in Hx. done.
Qed.

(** C2.  When [authenticate] resolves a user for the request found in the
    context, the email and the password of the attributes,
    [AuthTokenSerializer.validate] makes that one call, with exactly these
    arguments, and returns the attributes with the user under 'user'. *)
Theorem validate_authenticates_and_attaches
    (context : gmap string Request.t) (attrs : gmap string pyval) (db : table)
    (u : User.t) :
  authenticate db (context !! "request")
    (dict_get attrs "email") (dict_get attrs "password") = Some u →
  run (AuthTokenSerializer.validate context attrs) db =
    mkOutcome (inr (<["user" := PyUser u]> attrs)) db
      [authenticate_call (context !! "request")
         (dict_get attrs "email") (dict_get attrs "password")].
Proof.
  intros Hauth. unfold AuthTokenSerializer.validate. simpl. by rewrite Hauth.
Qed.

(** C9, as amended.  When [AuthTokenSerializer.validate] succeeds, what it
    returns is the input with the resolved user set under 'user': the
    entries under 'email' and 'password' and under every other key are the
    input's, and the keys are the input's together with 'user'.  An input
    without a 'user' key, such as the attributes the field validation
    produces, grows by exactly that one key; an input that holds one keeps
    its keys and has that entry overwritten. *)
Theorem validate_frame
    (context : gmap string Request.t) (attrs res : gmap string pyval)
    (db : table) :
  result (run (AuthTokenSerializer.validate context attrs) db) = inr res →
  ∃ u,
    authenticate db (context !! "request")
      (dict_get attrs "email") (dict_get attrs "password") = Some u
    ∧ res = <["user" := PyUser u]> attrs
    ∧ res !! "user" = Some (PyUser u)
    ∧ res !! "email" = attrs !! "email"
    ∧ res !! "password" = attrs !! "password"
    ∧ (∀ key, key ≠ "user" → res !! key = attrs !! key)
    ∧ dom res = {["user"]} ∪ dom attrs
    ∧ (attrs !! "user" = None → size res = S (size attrs))
    ∧ (is_Some (attrs !! "user") → size res = size attrs ∧ dom res = dom attrs)
    ∧ (∀ partial db' instance data,
         attrs = (collect AuthTokenSerializer.fields partial db' instance data).2 →
         attrs !! "user" = None).
Proof.
  unfold AuthTokenSerializer.validate. simpl.
  destruct (authenticate db _ _ _) as [u|] eqn:Hauth; simpl; [|done].
  intros [= <-]. exists u. split_and!.
  - done.
  - done.
  - by rewrite lookup_insert_eq.
  - by rewrite lookup_insert_ne.
  - by rewrite lookup_insert_ne.
  - intros key Hkey. by rewrite lookup_insert_ne.
  - by rewrite dom_insert_L.
  - intros Hnone. by apply map_size_insert_None.
  - intros Hsome. split; [by apply map_size_insert_Some|].
    rewrite dom_insert_L. apply elem_of_dom in Hsome.
    apply subseteq_union_1_L. by apply singleton_subseteq_l.
  - intros partial db' instance data ->.
    assert (Hn : "user" ∉ AuthTokenSerializer.fields.*1).
    { cbn. rewrite !not_elem_of_cons. split_and!; try done.
      apply not_elem_of_nil. }
    exact (proj2 (collect_keys AuthTokenSerializer.fields partial db'
                    instance data "user" Hn)).
Qed.

(** What validating the data of a token request computes. *)
Lemma run_token_validated_data (context : gmap string Request.t)
    (data : gmap string jsonval) (db : table) :
  let c := collect AuthTokenSerializer.fields false db None data in
  let email := dict_get c.2 "email" in
  let password := dict_get c.2 "password" in
  run (AuthTokenSerializer.validated_data context data) db =
    if decide (c.1 = ∅)
    then
      mkOutcome
        (match authenticate db (context !! "request") email password with
         | Some u => inr (<["user" := PyUser u]> c.2)
         | None =>
             inl (ErrorDict
                    {[ "non_field_errors" :=
                         [mkErrorDetail AuthTokenSerializer.msg "authentication"] ]})
         end)
        db [authenticate_call (context !! "request") email password]
    else mkOutcome (inl (ErrorDict c.1)) db [].
Proof.
  intros c email password. unfold AuthTokenSerializer.validated_data.
  rewrite run_Serializer_run_validation. fold c.
  destruct (decide (c.1 = ∅)); [|done].
  simpl. fold email password.
  by destruct (authenticate db (context !! "request") email password).
Qed.

(** C10.  The password of a token request is not trimmed: every call of
    [authenticate] that validating the request data makes carries the
    password exactly as it was sent, surrounding whitespace included; the
    call is made whenever the email and the password are not blank and pass
    the character validators; so requests whose passwords differ reach
    [authenticate] with different passwords. *)
Theorem token_password_not_trimmed (context : gmap string Request.t)
    (data : gmap string jsonval) (db : table) (p : string) :
  data !! "password" = Some (JStr p) →
  let o := run (AuthTokenSerializer.validated_data context data) db in
  (∀ r username password,
     authenticate_call r username password ∈ calls o → password = PyStr p)
  ∧ (∀ e : string,
       data !! "email" = Some (JStr e) →
       strip e ≠ "" → p ≠ "" →
       char_validators (strip e) = [] → char_validators p = [] →
       calls o =
         [authenticate_call (context !! "request") (PyStr (strip e)) (PyStr p)])
  ∧ (∀ context' data' db' (p' : string) r username password
       r' username' password',
       data' !! "password" = Some (JStr p') →
       p ≠ p' →
       authenticate_call r username password ∈ calls o →
       authenticate_call r' username' password'
         ∈ calls (run (AuthTokenSerializer.validated_data context' data') db') →
       password ≠ password').
Proof.
  intros Hp o.
  assert (Hcalls : ∀ context data db (p : string),
    data !! "password" = Some (JStr p) →
    ∀ r username password,
      authenticate_call r username password
        ∈ calls (run (AuthTokenSerializer.validated_data context data) db) →
      password = PyStr p).
  { clear. intros context data db p Hp r username password.
    rewrite run_token_validated_data.
    destruct (decide _) as [Hempty|Herr]; [|by intros ?%elem_of_nil].
    pose proof (collect_token_password db _ p Hp Hempty) as Hpw.
    cbn [calls]. unfold dict_get at 2. rewrite Hpw. simpl.
    intros Hin%list_elem_of_singleton. by injection Hin as _ _ ->. }
  split_and!.
  - by apply Hcalls.
  - intros e He Hse Hpne Hve Hvp. subst o.
    rewrite run_token_validated_data.
    assert (Hc : collect AuthTokenSerializer.fields false db None data
                 = (∅, {[ "email" := PyStr (strip e); "password" := PyStr p ]})).
    { simpl. rewrite He, Hp.
      rewrite token_password_accepted by done.
      unfold run_validation. simpl.
      assert (e ≠ "") by (by intros ->).
      rewrite !bool_decide_eq_false_2 by done. simpl.
      unfold run_validators. simpl. by rewrite Hve. }
    rewrite Hc. simpl. by rewrite dict_get_email, dict_get_password.
  - intros context' data' db' p' r username password r' username' password'
      Hp' Hne Hin Hin'.
    apply (Hcalls _ _ _ _ Hp) in Hin as ->.
    apply (Hcalls _ _ _ _ Hp') in Hin' as ->.
    congruence.
Qed.
End AuthToken.

Section AuthTokenWitnesses.
#[local] Existing Instance Fixture.collaborators.
#[local] Existing Instance Fixture.declarations.

(** [test_create_token_no_user]: nobody is stored. *)
Lemma validate_raises_iff_no_user_witness :
  let request := Request.mk POST Fixture.no_user None in
  let attrs : gmap string pyval :=
    {[ "email" := PyStr "invalid@gmail.com"; "password" := PyStr "testpw" ]} in
  result (run (AuthTokenSerializer.validate {[ "request" := request ]} attrs) [])
    = inl (ValidationError_
             (ugettext_lazy "Unable to authenticate, check your credentials")
             "authentication")
  ∧ ∃ detail,
      result (run (token_view request) [])
        = inr (Response.mk HTTP_400_BAD_REQUEST (Errors detail))
      ∧ ¬ body_contains (Errors detail) "token".
Proof.
  intros request attrs.
  destruct (validate_raises_iff_no_user {[ "request" := request ]} attrs [])
    as (Hraise & _ & Htoken).
  split.
  - apply Hraise. reflexivity.
  - apply (Htoken request "invalid@gmail.com" "testpw"); reflexivity.
Defined.

(** [test_create_token_for_user]: the stored user, the right password. *)
Lemma validate_authenticates_and_attaches_witness :
  let request := Request.mk POST Fixture.credentials None in
  let context : gmap string Request.t := {[ "request" := request ]} in
  let attrs : gmap string pyval :=
    {[ "email" := PyStr "test@gmail.com"; "password" := PyStr "testpw1" ]} in
  authenticate [Fixture.stored_user] (context !! "request")
    (dict_get attrs "email") (dict_get attrs "password")
    = Some Fixture.stored_user
  ∧ run (AuthTokenSerializer.validate context attrs) [Fixture.stored_user] =
      mkOutcome (inr (<["user" := PyUser Fixture.stored_user]> attrs))
        [Fixture.stored_user]
        [authenticate_call (Some request) (PyStr "test@gmail.com")
           (PyStr "testpw1")].
Proof.
  intros request context attrs. split.
  - reflexivity.
  - apply (validate_authenticates_and_attaches context attrs
             [Fixture.stored_user] Fixture.stored_user).
    reflexivity.
Defined.

Lemma validate_frame_witness :
  let request := Request.mk POST Fixture.credentials None in
  let context : gmap string Request.t := {[ "request" := request ]} in
  let attrs : gmap string pyval :=
    {[ "email" := PyStr "test@gmail.com"; "password" := PyStr "testpw1" ]} in
  let res := <["user" := PyUser Fixture.stored_user]> attrs in
  result (run (AuthTokenSerializer.validate context attrs) [Fixture.stored_user])
    = inr res
  ∧ res !! "email" = Some (PyStr "test@gmail.com")
  ∧ res !! "password" = Some (PyStr "testpw1")
  ∧ size res = 3.
Proof.
  intros request context attrs res.
  assert (Hres : result (run (AuthTokenSerializer.validate context attrs)
                           [Fixture.stored_user]) = inr res)
    by reflexivity.
  destruct (validate_frame context attrs res [Fixture.stored_user] Hres)
    as (u & _ & _ & _ & Hemail & Hpassword & _ & _ & Hsize & _).
  split_and!.
  - exact Hres.
  - rewrite Hemail. reflexivity.
  - rewrite Hpassword. reflexivity.
  - rewrite Hsize; reflexivity.
Defined.

(** C9 as it was stated does not hold of attributes that already hold a
    'user' entry: [validate] succeeds on them, no key is added, and the entry
    that was there is replaced. *)
Lemma validate_frame_counterexample :
  let attrs : gmap string pyval :=
    {[ "email" := PyStr "test@gmail.com"; "password" := PyStr "testpw1";
       "user" := PyStr "stale" ]} in
  ∃ res,
    result (run (AuthTokenSerializer.validate ∅ attrs) [Fixture.stored_user])
      = inr res
    ∧ ¬ (size res = S (size attrs))
    ∧ dom res = dom attrs
    ∧ res !! "user" ≠ attrs !! "user".
Proof.
  intros attrs.
  exists (<["user" := PyUser Fixture.stored_user]> attrs).
  split_and!.
  - reflexivity.
  - vm_compute. discriminate.
  - reflexivity.
  - vm_compute. discriminate.
Qed.

(** A password sent with surrounding blanks reaches [authenticate] with
    them, while the email arrives stripped. *)
Lemma token_password_not_trimmed_witness :
  let data : gmap string jsonval :=
    {[ "email" := JStr " test@gmail.com "; "password" := JStr " testpw1 " ]} in
  let request := Request.mk POST data None in
  data !! "password" = Some (JStr " testpw1 ")
  ∧ calls (run (AuthTokenSerializer.validated_data {[ "request" := request ]}
                  data) [Fixture.stored_user])
      = [authenticate_call (Some request) (PyStr "test@gmail.com")
           (PyStr " testpw1 ")].
Proof.
  intros data request.
  destruct (token_password_not_trimmed {[ "request" := request ]} data
              [Fixture.stored_user] " testpw1 " eq_refl) as (_ & Hcall & _).
  split; [reflexivity|].
  apply (Hcall " test@gmail.com "); try reflexivity; discriminate.
Defined.
End AuthTokenWitnesses.

(** ** [UserSerializer] and the create-user endpoint *)

Lemma exists_other_elem (attr : User.t → string) (value : string) (pk : nat)
    (rows : table) (u : User.t) :
  u ∈ rows → attr u = value → exists_other attr value None pk rows = true.
Proof.
  intros Hin Hattr. revert pk.
  induction rows as [|u' rows IH]; intros pk; [by apply elem_of_nil in Hin|].
  simpl. apply elem_of_cons in Hin as [<-|Hin].
  - by rewrite (bool_decide_eq_true_2 _ Hattr).
  - rewrite IH by done. apply orb_true_r.
Qed.

Section CreateUser.
Context `{Collaborators} `{Declarations}.

Lemma password_field_declared :
  ("password", UserSerializer.build_field "password") ∈ UserSerializer.fields.
Proof. rewrite UserSerializer_fields. set_solver. Qed.

Lemma email_field_declared :
  ("email", UserSerializer.build_field "email") ∈ UserSerializer.fields.
Proof. rewrite UserSerializer_fields. set_solver. Qed.

(** An email that a stored user already has never passes the email field
    of a create request. *)
Lemma email_taken db (e : string) (u : User.t) :
  u ∈ db → User.email u = strip e →
  ∃ errs, run_validation (UserSerializer.build_field "email") false db None
            (Some (JStr e)) = Invalid errs.
Proof.
  intros Hin Hemail. rewrite build_field_email. unfold run_validation. simpl.
  destruct (bool_decide (e = "") || bool_decide (strip e = "")); [by eexists|].
  eapply run_validators_invalid.
  unfold run_validators, UniqueValidator. simpl.
  rewrite (exists_other_elem User.email (strip e) 0 db u Hin Hemail).
  rewrite !elem_of_app, elem_of_cons. eauto.
Qed.

(** C3.  A create-user request whose password has fewer than 6 characters
    is answered 400 with an error on the password field; no collaborator is
    called ([create_user] in particular: the table is only read, by the
    uniqueness look-up of the email field), the table is left as it was,
    and so no record appears for an email that had none. *)
Theorem short_password_rejected (request : Request.t) (db : table)
    (p : string) :
  Request.method request = POST →
  Request.data request !! "password" = Some (JStr p) →
  (String.length p < 6)%nat →
  let o := run (create_view request) db in
  (∃ errors,
     result o = inr (Response.mk HTTP_400_BAD_REQUEST (Errors (ErrorDict errors)))
     ∧ is_Some (errors !! "password"))
  ∧ calls o = []
  ∧ final o = db
  ∧ (∀ e, (∀ u, u ∈ db → User.email u ≠ e) →
          ∀ u, u ∈ final o → User.email u ≠ e).
Proof.
  intros Hm Hp Hlen o. subst o.
  destruct (password_too_short false db None p Hlen) as [errs Herrs].
  rewrite <- Hp in Herrs.
  pose proof (collect_invalid _ _ _ _ _ _ _ _ password_field_declared Herrs)
    as Hsome.
  rewrite run_create_view by done.
  destruct (decide _) as [Hempty|Hne].
  - rewrite Hempty, lookup_empty in Hsome. by destruct Hsome.
  - simpl. split_and!; eauto.
Qed.

(** C7.  A create-user request whose email, as validated, is the email of
    a stored user is answered 400 with an error on the email field;
    [create_user] is not called and the table is left as it was, so no
    second record with that email appears. *)
Theorem existing_email_rejected (request : Request.t) (db : table)
    (e : string) (u : User.t) :
  Request.method request = POST →
  Request.data request !! "email" = Some (JStr e) →
  u ∈ db → User.email u = strip e →
  let o := run (create_view request) db in
  (∃ errors,
     result o = inr (Response.mk HTTP_400_BAD_REQUEST (Errors (ErrorDict errors)))
     ∧ is_Some (errors !! "email"))
  ∧ calls o = []
  ∧ final o = db.
Proof.
  intros Hm He Hin Hemail o. subst o.
  destruct (email_taken db e u Hin Hemail) as [errs Herrs].
  rewrite <- He in Herrs.
  pose proof (collect_invalid _ _ _ _ _ _ _ _ email_field_declared Herrs)
    as Hsome.
  rewrite run_create_view by done.
  destruct (decide _) as [Hempty|Hne].
  - rewrite Hempty, lookup_empty in Hsome. by destruct Hsome.
  - simpl. split_and!; eauto.
Qed.
End CreateUser.

Section CreateUserWitnesses.
#[local] Existing Instance Fixture.collaborators.
#[local] Existing Instance Fixture.declarations.

(** [test_password_too_short]. *)
Lemma short_password_rejected_witness :
  let request := Request.mk POST Fixture.too_short None in
  Request.method request = POST
  ∧ Request.data request !! "password" = Some (JStr "short")
  ∧ (String.length "short" < 6)%nat
  ∧ calls (run (create_view request) []) = []
  ∧ final (run (create_view request) []) = [].
Proof.
  intros request.
  assert (Hlen : (String.length "short" < 6)%nat) by (simpl; lia).
  destruct (short_password_rejected request [] "short" eq_refl eq_refl Hlen)
    as (_ & Hcalls & Hfinal & _).
  split_and!; [reflexivity | reflexivity | exact Hlen | exact Hcalls | exact Hfinal].
Defined.

(** [test_user_exists]. *)
Lemma existing_email_rejected_witness :
  let request := Request.mk POST Fixture.payload None in
  Request.method request = POST
  ∧ Request.data request !! "email" = Some (JStr "test@gmail.com")
  ∧ Fixture.stored_user ∈ [Fixture.stored_user]
  ∧ User.email Fixture.stored_user = strip "test@gmail.com"
  ∧ calls (run (create_view request) [Fixture.stored_user]) = []
  ∧ final (run (create_view request) [Fixture.stored_user])
      = [Fixture.stored_user].
Proof.
  intros request.
  assert (Hin : Fixture.stored_user ∈ [Fixture.stored_user])
    by (apply list_elem_of_singleton; reflexivity).
  destruct (existing_email_rejected request [Fixture.stored_user]
              "test@gmail.com" Fixture.stored_user eq_refl eq_refl Hin eq_refl)
    as (_ & Hcalls & Hfinal).
  split_and!;
    [reflexivity | reflexivity | exact Hin | reflexivity
    | exact Hcalls | exact Hfinal].
Defined.
End CreateUserWitnesses.

(** ** What is stored and what is shown *)

Section Stored.
Context `{Collaborators} `{Declarations}.

Lemma user_password_stripped partial db instance (p : string) value :
  run_validation (UserSerializer.build_field "password") partial db instance
    (Some (JStr p)) = Valid value →
  value = PyStr (strip p).
Proof.
  rewrite build_field_password. unfold run_validation. simpl.
  destruct (bool_decide (p = "") || bool_decide (strip p = "")); [done|].
  destruct (run_validators _ _ _ _); [|done]. by intros [= <-].
Qed.

(** When a request with a password passes the fields of [UserSerializer],
    the validated password is the stripped one. *)
Lemma collect_user_password partial db instance data (p : string) :
  data !! "password" = Some (JStr p) →
  let c := collect UserSerializer.fields partial db instance data in
  c.1 = ∅ → c.2 !! "password" = Some (PyStr (strip p)).
Proof.
  intros Hp. rewrite UserSerializer_fields. cbn [collect]. rewrite Hp.
  destruct (run_validation (UserSerializer.build_field "password") partial db
              instance (Some (JStr p))) as [|errs|v] eqn:Hpw.
  - rewrite build_field_password in Hpw. unfold run_validation in Hpw.
    simpl in Hpw. repeat case_match; done.
  - destruct (run_validation (UserSerializer.build_field "name") _ _ _ _);
    destruct (run_validation (UserSerializer.build_field "email") _ _ _ _);
      simpl; intros Hempty; by apply insert_non_empty in Hempty.
  - apply user_password_stripped in Hpw as ->.
    destruct (run_validation (UserSerializer.build_field "name") _ _ _ _);
    destruct (run_validation (UserSerializer.build_field "email") _ _ _ _);
      simpl; intros Hempty; try (by apply insert_non_empty in Hempty);
      by simplify_map_eq.
Qed.

(** Every [Data] body of the create-user and of the profile endpoint is
    the representation of a user. *)
Lemma create_view_data request db resp d :
  result (run (create_view request) db) = inr resp →
  Response.data resp = Data d →
  ∃ u, d = to_representation UserSerializer.fields u.
Proof.
  destruct (Request.method request) eqn:Hm.
  - unfold create_view. rewrite Hm. simpl. by intros [= <-].
  - rewrite run_create_view by done.
    destruct (decide _); simpl; intros [= <-]; simpl; [|done].
    intros [= <-]. eauto.
  - unfold create_view. rewrite Hm. simpl. by intros [= <-].
Qed.

Lemma me_view_data request db resp d :
  result (run (me_view request) db) = inr resp →
  Response.data resp = Data d →
  ∃ u, d = to_representation UserSerializer.fields u.
Proof.
  destruct (Request.user request ≫= (λ pk, db !! pk)) as [instance|] eqn:Hu.
  - destruct (Request.user request) as [pk|] eqn:Hpk; [|done]. simpl in Hu.
    destruct (Request.method request) eqn:Hm.
    + rewrite (run_me_view_get _ _ pk instance) by done. simpl.
      intros [= <-]. simpl. intros [= <-]. eauto.
    + unfold me_view. cbn [run]. rewrite Hpk, Hu, Hm. simpl. by intros [= <-].
    + rewrite (run_me_view_patch _ _ pk instance) by done.
      destruct (decide _); simpl; intros [= <-]; simpl; [|done].
      intros [= <-]. eauto.
  - rewrite run_me_view_anonymous by done. simpl. by intros [= <-].
Qed.

(** C4.  On a validated payload [UserSerializer.create] makes one call,
    [create_user] with that payload, and returns the user it created; with
    a hasher whose hash of the password checks against it and differs from
    it, the stored password verifies against the plaintext and is not the
    plaintext.  A 201 response of the create-user endpoint shows the email
    and the name of the user it stored and holds no password; the password
    it stored is the hash of the validated one. *)
Theorem create_hashes_password (validated_data : gmap string pyval)
    (db : table) (e p n : string) :
  validated_data !! "email" = Some (PyStr e) →
  validated_data !! "password" = Some (PyStr p) →
  validated_data !! "name" = Some (PyStr n) →
  check_password p (make_password p) = true →
  make_password p ≠ p →
  let u := User.mk e (make_password p) n in
  run (UserSerializer.create validated_data) db =
    mkOutcome (inr u) (db ++ [u])%list [create_user_call validated_data]
  ∧ check_password p (User.password u) = true
  ∧ User.password u ≠ p
  ∧ (∀ request db' resp,
       result (run (create_view request) db') = inr resp →
       Response.status_code resp = HTTP_201_CREATED →
       ∃ u',
         Response.data resp =
           Data {[ "email" := PyStr (User.email u');
                   "name" := PyStr (User.name u') ]}
         ∧ ¬ body_contains (Response.data resp) "password"
         ∧ final (run (create_view request) db') = (db' ++ [u'])%list
         ∧ (∀ p0 : string,
              Request.data request !! "password" = Some (JStr p0) →
              User.password u' = make_password (strip p0))).
Proof.
  intros He Hp Hn Hcheck Hhash u. split_and!.
  - unfold UserSerializer.create. simpl. unfold kwarg_str.
    by rewrite He, Hp, Hn.
  - done.
  - done.
  - intros request db' resp.
    destruct (Request.method request) eqn:Hm.
    + unfold create_view. rewrite Hm. simpl. by intros [= <-].
    + rewrite run_create_view by done.
      set (c := collect UserSerializer.fields false db' None
                  (Request.data request)).
      destruct (decide _) as [Hempty|Hne]; cbn [result final]; intros Hres Hst.
      * exists (create_user db' c.2).1.
        assert (resp = Response.mk HTTP_201_CREATED
                  (Data (to_representation UserSerializer.fields
                           (create_user db' c.2).1))) as -> by congruence.
        cbn [Response.data body_contains].
        rewrite to_representation_user. split_and!.
        -- done.
        -- intros [x Hx]. by simplify_map_eq.
        -- done.
        -- intros p0 Hp0. cbn [create_user fst User.password].
           unfold kwarg_str.
           pose proof (collect_user_password false db' None _ p0 Hp0 Hempty)
             as Hpw.
           fold c in Hpw. by rewrite Hpw.
      * assert (resp = Response.mk HTTP_400_BAD_REQUEST
                  (Errors (ErrorDict c.1))) as -> by congruence.
        done.
    + unfold create_view. rewrite Hm. simpl. by intros [= <-].
Qed.

(** C6.  The representation [UserSerializer] gives of a user holds the
    email and the name and no password, and every data body the
    create-user endpoint and the profile endpoint (retrieval and update)
    answer with is such a representation. *)
Theorem password_write_only (instance : User.t) :
  let repr := to_representation UserSerializer.fields instance in
  repr !! "email" = Some (PyStr (User.email instance))
  ∧ repr !! "name" = Some (PyStr (User.name instance))
  ∧ repr !! "password" = None
  ∧ dom repr = {[ "email"; "name" ]}
  ∧ (∀ request db resp d,
       result (run (create_view request) db) = inr resp
       ∨ result (run (me_view request) db) = inr resp →
       Response.data resp = Data d →
       is_Some (d !! "email") ∧ is_Some (d !! "name")
       ∧ d !! "password" = None).
Proof.
  assert (Hrepr : ∀ u : User.t,
    is_Some (to_representation UserSerializer.fields u !! "email")
    ∧ is_Some (to_representation UserSerializer.fields u !! "name")
    ∧ to_representation UserSerializer.fields u !! "password" = None).
  { intros u. rewrite to_representation_user. split_and!; by simplify_map_eq. }
  intros repr. subst repr. rewrite to_representation_user. split_and!.
  - by simplify_map_eq.
  - by simplify_map_eq.
  - by simplify_map_eq.
  - set_solver.
  - intros request db resp d [Hrun|Hrun] Hd.
    + destruct (create_view_data _ _ _ _ Hrun Hd) as [u ->]. apply Hrepr.
    + destruct (me_view_data _ _ _ _ Hrun Hd) as [u ->]. apply Hrepr.
Qed.

(** C8.  The profile endpoint answers an unauthenticated caller 401,
    whatever the method, and answers a GET of an authenticated caller 200
    with exactly the name and the email of the caller's stored row; the
    table is left as it was. *)
Theorem me_view_profile (request : Request.t) (db : table) :
  (Request.user request = None →
     run (me_view request) db =
       mkOutcome
         (inr (Response.mk HTTP_401_UNAUTHORIZED (Detail "not_authenticated")))
         db [])
  ∧ (∀ pk u,
       Request.user request = Some pk → db !! pk = Some u →
       Request.method request = GET →
       run (me_view request) db =
         mkOutcome
           (inr (Response.mk HTTP_200_OK
                   (Data {[ "name" := PyStr (User.name u);
                            "email" := PyStr (User.email u) ]})))
           db []).
Proof.
  split.
  - intros Hu. apply run_me_view_anonymous. by rewrite Hu.
  - intros pk u Hu Hrow Hm.
    rewrite (run_me_view_get _ _ pk u) by done.
    rewrite to_representation_user. reflexivity.
Qed.
End Stored.

Section StoredWitnesses.
#[local] Existing Instance Fixture.collaborators.
#[local] Existing Instance Fixture.declarations.

(** [test_create_valid_user_successful], on the validated payload. *)
Lemma create_hashes_password_witness :
  let validated_data : gmap string pyval :=
    {[ "email" := PyStr "test@gmail.com"; "password" := PyStr "testpw1";
       "name" := PyStr "test_name" ]} in
  let u := User.mk "test@gmail.com" (Fixture.hasher "testpw1") "test_name" in
  validated_data !! "email" = Some (PyStr "test@gmail.com")
  ∧ validated_data !! "password" = Some (PyStr "testpw1")
  ∧ validated_data !! "name" = Some (PyStr "test_name")
  ∧ check_password "testpw1" (make_password "testpw1") = true
  ∧ make_password "testpw1" ≠ "testpw1"
  ∧ run (UserSerializer.create validated_data) [] =
      mkOutcome (inr u) [u] [create_user_call validated_data]
  ∧ check_password "testpw1" (User.password u) = true
  ∧ User.password u ≠ "testpw1".
Proof.
  intros validated_data u.
  assert (Hhash : make_password "testpw1" ≠ "testpw1") by discriminate.
  assert (Hcheck' : check_password "testpw1" (make_password "testpw1") = true)
    by (vm_compute; reflexivity).
  destruct (create_hashes_password validated_data [] "test@gmail.com"
              "testpw1" "test_name" eq_refl eq_refl eq_refl Hcheck' Hhash)
    as (Hrun & Hcheck & Hne & _).
  split_and!;
    [reflexivity | reflexivity | reflexivity | exact Hcheck' | exact Hhash
    | exact Hrun | exact Hcheck | exact Hne].
Defined.

(** [test_retrieve_profile_success]. *)
Lemma me_view_profile_witness :
  let request := Request.mk GET ∅ (Some 0) in
  Request.user request = Some 0
  ∧ [Fixture.stored_user] !! 0 = Some Fixture.stored_user
  ∧ Request.method request = GET
  ∧ run (me_view request) [Fixture.stored_user] =
      mkOutcome
        (inr (Response.mk HTTP_200_OK
                (Data {[ "name" := PyStr "Testname";
                         "email" := PyStr "test@gmail.com" ]})))
        [Fixture.stored_user] [].
Proof.
  intros request.
  destruct (me_view_profile request [Fixture.stored_user]) as [_ Hget].
  split_and!; [reflexivity | reflexivity | reflexivity |].
  apply (Hget 0 Fixture.stored_user); reflexivity.
Defined.
End StoredWitnesses.

(** ** The generic update *)

Section Update.
Context `{Collaborators} `{Declarations}.

(** The generic update assigns the validated password to the instance as
    it is. *)
Lemma update_assigns_password (validated_data : gmap string pyval)
    (instance : User.t) :
  User.password (foldl (assign validated_data) instance UserSerializer.fields)
    = match validated_data !! "password" with
      | Some (PyStr s) => s
      | _ => User.password instance
      end.
Proof.
  rewrite UserSerializer_fields. cbn [foldl]. unfold assign, setattr. simpl.
  repeat case_match; simplify_eq; done.
Qed.

(** A partial update that carries a password and is answered 200 has
    stored that password, stripped, and not its hash. *)
Lemma patch_stores_password request db pk instance (p : string) resp :
  Request.user request = Some pk → db !! pk = Some instance →
  Request.method request = PATCH →
  Request.data request !! "password" = Some (JStr p) →
  result (run (me_view request) db) = inr resp →
  Response.status_code resp = HTTP_200_OK →
  ∃ instance',
    final (run (me_view request) db) !! pk = Some instance'
    ∧ User.password instance' = strip p.
Proof.
  intros Hu Hrow Hm Hp.
  rewrite (run_me_view_patch _ _ pk instance) by done.
  set (c := collect UserSerializer.fields true db (Some pk)
              (Request.data request)).
  destruct (decide _) as [Hempty|Hne]; cbn [result final]; intros Hres Hst.
  - eexists. split.
    + unfold save. apply list_lookup_insert_eq. by eapply lookup_lt_Some.
    + rewrite update_assigns_password.
      pose proof (collect_user_password true db (Some pk) _ p Hp Hempty) as Hpw.
      fold c in Hpw. by rewrite Hpw.
  - assert (resp = Response.mk HTTP_400_BAD_REQUEST (Errors (ErrorDict c.1)))
      as -> by congruence.
    done.
Qed.

(** C5 (the code at the input of [test_update_user_profile]).  The
    partial update of the stored user with the name 'new name' and the
    password 'newpassword1' is answered 200 and the new name is stored, but
    the password column then holds 'newpassword1' itself, whatever the
    hasher: [UserSerializer] has no [update] of its own, and the generic
    one assigns the validated fields as they are. *)
Theorem update_stores_password_verbatim :
  let request := Request.mk PATCH Fixture.update (Some 0) in
  let db := [User.mk "test@gmail.com" (make_password "testpw1") "Testname"] in
  let o := run (@me_view Fixture.declarations request) db in
  result o =
    inr (Response.mk HTTP_200_OK
           (Data {[ "email" := PyStr "test@gmail.com";
                    "name" := PyStr "new name" ]}))
  ∧ final o = [User.mk "test@gmail.com" "newpassword1" "new name"]
  ∧ calls o = [save_call 0 (User.mk "test@gmail.com" "newpassword1" "new name")].
Proof. intros request db o. subst o db request. by vm_compute. Qed.
End Update.

(** With the stand-in hasher, the password stored by that update does not
    verify against the plaintext that was sent. *)
Example updated_password_does_not_check :
  Fixture.checker "newpassword1" "newpassword1" = false.
Proof. reflexivity. Qed.

(** ** The tests of the app, run on the fixtures *)

Section Tests.
#[local] Existing Instance Fixture.collaborators.
#[local] Existing Instance Fixture.declarations.

Example test_create_valid_user_successful :
  let created := User.mk "test@gmail.com" (Fixture.hasher "testpw1") "test_name" in
  run (create_view (Request.mk POST Fixture.payload None)) [] =
    mkOutcome
      (inr (Response.mk HTTP_201_CREATED
              (Data {[ "email" := PyStr "test@gmail.com";
                       "name" := PyStr "test_name" ]})))
      [created]
      [create_user_call
         {[ "email" := PyStr "test@gmail.com"; "password" := PyStr "testpw1";
            "name" := PyStr "test_name" ]}].
Proof. reflexivity. Qed.

Example test_create_token_for_user :
  result (run (token_view (Request.mk POST Fixture.credentials None))
            [Fixture.stored_user]) =
    inr (Response.mk HTTP_200_OK
           (Data {[ "token" := PyStr "token-test@gmail.com" ]})).
Proof. reflexivity. Qed.

Example test_create_token_invalid_password :
  let data : gmap string jsonval :=
    {[ "email" := JStr "test@gmail.com"; "password" := JStr "wrongpw" ]} in
  result (run (token_view (Request.mk POST data None)) [Fixture.stored_user]) =
    inr (Response.mk HTTP_400_BAD_REQUEST
           (Errors (ErrorDict
              {[ "non_field_errors" :=
                   [mkErrorDetail AuthTokenSerializer.msg "authentication"] ]}))).
Proof. reflexivity. Qed.

Example test_create_token_missing_field :
  let data : gmap string jsonval :=
    {[ "email" := JStr "test"; "password" := JStr "" ]} in
  result (run (token_view (Request.mk GET data None)) []) =
    inr (Response.mk HTTP_405_METHOD_NOT_ALLOWED (Detail "method_not_allowed")).
Proof. reflexivity. Qed.

Example test_post_me_not_allowed :
  result (run (me_view (Request.mk POST ∅ (Some 0))) [Fixture.stored_user]) =
    inr (Response.mk HTTP_405_METHOD_NOT_ALLOWED (Detail "method_not_allowed")).
Proof. reflexivity. Qed.

(** A password registered with surrounding blanks is stored stripped, while
    the token serializer hands the blanks on: the same text then fails to
    authenticate. *)
Example register_then_login_with_blanks :
  let data : gmap string jsonval :=
    {[ "email" := JStr "test@gmail.com"; "password" := JStr " testpw1 ";
       "name" := JStr "test_name" ]} in
  let db := final (run (create_view (Request.mk POST data None)) []) in
  db = [User.mk "test@gmail.com" (Fixture.hasher "testpw1") "test_name"]
  ∧ result (run (token_view (Request.mk POST (delete "name" data) None)) db)
    = inr (Response.mk HTTP_400_BAD_REQUEST
             (Errors (ErrorDict
                {[ "non_field_errors" :=
                     [mkErrorDetail AuthTokenSerializer.msg "authentication"] ]}))).
Proof. split; reflexivity. Qed.
End Tests.

(** * Further properties of the serializers *)

(** ** Stripped strings *)

Lemma lstrip_idemp (s : string) : lstrip (lstrip s) = lstrip s.
Proof.
  induction s as [|c s IH]; simpl; [done|].
  destruct (py_isspace c) eqn:Hc; [done|]. simpl. by rewrite Hc.
Qed.

Lemma rstrip_idemp (s : string) : rstrip (rstrip s) = rstrip s.
Proof.
  induction s as [|c s IH]; simpl; [done|].
  destruct (rstrip s) as [|c' r] eqn:Hr.
  - destruct (py_isspace c) eqn:Hc; simpl; [done|]. by rewrite Hc.
  - change (rstrip (String c (String c' r))) with
      (match rstrip (String c' r) with
       | EmptyString => if py_isspace c then EmptyString else String c EmptyString
       | r' => String c r'
       end).
    by rewrite IH.
Qed.

(** A string that starts with no whitespace still does once its end is
    stripped. *)
Lemma lstrip_rstrip (s : string) : lstrip s = s → lstrip (rstrip s) = rstrip s.
Proof.
  destruct s as [|c s]; [done|]. simpl.
  destruct (py_isspace c) eqn:Hc.
  - intros Heq. pose proof (length_lstrip s) as Hlen.
    rewrite Heq in Hlen. simpl in Hlen. lia.
  - intros _. destruct (rstrip s); simpl; by rewrite Hc.
Qed.

Lemma lstrip_strip (s : string) : lstrip (strip s) = strip s.
Proof. unfold strip. apply lstrip_rstrip, lstrip_idemp. Qed.

Lemma rstrip_strip (s : string) : rstrip (strip s) = strip s.
Proof. unfold strip. apply rstrip_idemp. Qed.

Lemma strip_idemp (s : string) : strip (strip s) = strip s.
Proof.
  unfold strip at 1. by rewrite lstrip_strip, rstrip_strip.
Qed.

(** ** Validating a token request *)

Lemma blank_test (s : string) :
  bool_decide (s = "") || bool_decide (strip s = "") = bool_decide (strip s = "").
Proof.
  destruct (decide (s = "")) as [->|Hs].
  - reflexivity.
  - by rewrite (bool_decide_eq_false_2 _ Hs).
Qed.

Section TokenRequests.
Context `{Collaborators} `{Declarations}.

(** The email field of the token serializer, case by case. *)
Lemma token_email_result partial db instance (d : option jsonval) :
  run_validation AuthTokenSerializer.email partial db instance d =
    match d with
    | None => if partial then SkipField else fail "required"
    | Some JNull => fail "null"
    | Some (JStr e) =>
        if bool_decide (strip e = "") then fail "blank"
        else match char_validators (strip e) with
             | [] => Valid (PyStr (strip e))
             | err :: errs => Invalid (err :: errs)
             end
    end.
Proof.
  destruct d as [[|e]|]; try done.
  unfold run_validation. cbn [AuthTokenSerializer.email CharField_
    trim_whitespace allow_blank andb].
  rewrite blank_test. by destruct (bool_decide (strip e = "")).
Qed.

(** The password field of the token serializer, case by case. *)
Lemma token_password_result partial db instance (d : option jsonval) :
  run_validation AuthTokenSerializer.password partial db instance d =
    match d with
    | None => if partial then SkipField else fail "required"
    | Some JNull => fail "null"
    | Some (JStr p) =>
        if bool_decide (p = "") then fail "blank"
        else match char_validators p with
             | [] => Valid (PyStr p)
             | err :: errs => Invalid (err :: errs)
             end
    end.
Proof.
  destruct d as [[|p]|]; try done.
  unfold run_validation. cbn [AuthTokenSerializer.password
    trim_whitespace allow_blank andb]. rewrite orb_false_r.
  by destruct (bool_decide (p = "")).
Qed.

(** What the field loop of the token serializer yields, from the results of
    its two fields. *)
Lemma collect_token (db : table) (data : gmap string jsonval) :
  collect AuthTokenSerializer.fields false db None data =
    let email := run_validation AuthTokenSerializer.email false db None
                   (data !! "email") in
    let password := run_validation AuthTokenSerializer.password false db None
                      (data !! "password") in
    (match email with Invalid e => <["email" := e]> | _ => id end
       (match password with Invalid e => {[ "password" := e ]} | _ => ∅ end),
     match email with Valid v => <["email" := v]> | _ => id end
       (match password with Valid v => {[ "password" := v ]} | _ => ∅ end)).
Proof.
  simpl.
  destruct (run_validation AuthTokenSerializer.password _ _ _ _);
    destruct (run_validation AuthTokenSerializer.email _ _ _ _); done.
Qed.

(** The fields of a token request pass only if both credentials are there
    as strings, the email not blank once stripped and the password not
    empty. *)
Lemma collect_token_valid (db : table) (data : gmap string jsonval) :
  (collect AuthTokenSerializer.fields false db None data).1 = ∅ →
  ∃ e p : string,
    data !! "email" = Some (JStr e) ∧ data !! "password" = Some (JStr p)
    ∧ strip e ≠ "" ∧ p ≠ ""
    ∧ (collect AuthTokenSerializer.fields false db None data).2
      = {[ "email" := PyStr (strip e); "password" := PyStr p ]}.
Proof.
  rewrite collect_token, token_email_result, token_password_result.
  cbn zeta. unfold fail.
  destruct (data !! "email") as [[|e]|]; cbn [fst snd];
    try (by intros Habs; apply insert_non_empty in Habs).
  case_bool_decide as He;
    [by intros Habs; apply insert_non_empty in Habs|].
  destruct (char_validators (strip e));
    [|by intros Habs; apply insert_non_empty in Habs].
  destruct (data !! "password") as [[|p]|]; cbn [id];
    try (by intros Habs; apply map_non_empty_singleton in Habs).
  case_bool_decide as Hp;
    [by intros Habs; apply map_non_empty_singleton in Habs|].
  destruct (char_validators p);
    [|by intros Habs; apply map_non_empty_singleton in Habs].
  intros _. exists e, p. done.
Qed.
End TokenRequests.

Section TokenValidation.
Context `{Collaborators} `{Declarations}.

Lemma collect_token_error_email (db : table) (data : gmap string jsonval) :
  (collect AuthTokenSerializer.fields false db None data).1 !! "email" =
    match run_validation AuthTokenSerializer.email false db None
            (data !! "email") with
    | Invalid e => Some e
    | _ => None
    end.
Proof.
  rewrite collect_token. cbn zeta. cbn [fst].
  destruct (run_validation AuthTokenSerializer.email _ _ _ _);
    destruct (run_validation AuthTokenSerializer.password _ _ _ _);
    by simplify_map_eq.
Qed.

Lemma collect_token_error_password (db : table) (data : gmap string jsonval) :
  (collect AuthTokenSerializer.fields false db None data).1 !! "password" =
    match run_validation AuthTokenSerializer.password false db None
            (data !! "password") with
    | Invalid e => Some e
    | _ => None
    end.
Proof.
  rewrite collect_token. cbn zeta. cbn [fst].
  destruct (run_validation AuthTokenSerializer.email _ _ _ _);
    destruct (run_validation AuthTokenSerializer.password _ _ _ _);
    by simplify_map_eq.
Qed.

(** A field error ends the validation of a token request: the error is the
    outcome, nothing is called and the table is as before. *)
Lemma token_field_error (context : gmap string Request.t)
    (data : gmap string jsonval) (db : table) (field : string)
    (errs : list ErrorDetail) :
  (collect AuthTokenSerializer.fields false db None data).1 !! field = Some errs →
  ∃ errors,
    run (AuthTokenSerializer.validated_data context data) db
      = mkOutcome (inl (ErrorDict errors)) db []
    ∧ errors !! field = Some errs.
Proof.
  intros Hfield. rewrite run_token_validated_data.
  destruct (decide _) as [Hempty|_].
  - by rewrite Hempty, lookup_empty in Hfield.
  - eauto.
Qed.

(** X1.  [authenticate] is only ever called with credentials that are there:
    whenever validating a token request calls it, the request holds an entry
    for the email and one for the password, neither of them null, and the
    call carries the request of the context, a username that is a string, not
    empty and with no whitespace at either end, and a password that is a
    string and not empty.  For an email sent as a string the username is
    that string stripped; for a password sent as a string the password is
    that string as sent. *)
Theorem authenticate_only_with_credentials (context : gmap string Request.t)
    (data : gmap string jsonval) (db : table) (r : option Request.t)
    (username password : pyval) :
  authenticate_call r username password
    ∈ calls (run (AuthTokenSerializer.validated_data context data) db) →
  r = context !! "request"
  ∧ (∃ u : string,
       username = PyStr u ∧ u ≠ "" ∧ lstrip u = u ∧ rstrip u = u
       ∧ ∀ e : string, data !! "email" = Some (JStr e) → u = strip e)
  ∧ (∃ p : string,
       password = PyStr p ∧ p ≠ ""
       ∧ ∀ p0 : string, data !! "password" = Some (JStr p0) → p = p0)
  ∧ is_Some (data !! "email") ∧ data !! "email" ≠ Some JNull
  ∧ is_Some (data !! "password") ∧ data !! "password" ≠ Some JNull.
Proof.
  rewrite run_token_validated_data.
  destruct (decide _) as [Hempty|_]; [|by intros ?%elem_of_nil].
  destruct (collect_token_valid db data Hempty) as (e & p & He & Hp & Hne & Hpe & ->).
  cbn [calls snd]. rewrite dict_get_email, dict_get_password.
  intros Hin%list_elem_of_singleton. injection Hin as -> -> ->.
  rewrite He, Hp. split_and!; try done.
  - exists (strip e). split_and!; try done.
    + apply lstrip_strip.
    + apply rstrip_strip.
    + by intros e' [= <-].
  - exists p. split_and!; try done. by intros p0 [= <-].
Qed.

(** X2.  A credential that is missing, null or blank is reported under its
    own field, with the code 'required', 'null' or 'blank', whatever the
    other field holds; [authenticate] is not called and the table is as
    before.  An email is blank when nothing is left of it after stripping, a
    password only when it is empty. *)
Theorem token_field_errors (context : gmap string Request.t)
    (data : gmap string jsonval) (db : table) :
  let o := run (AuthTokenSerializer.validated_data context data) db in
  let reported (field key : string) :=
    ∃ errors msg,
      o = mkOutcome (inl (ErrorDict errors)) db []
      ∧ errors !! field = Some [mkErrorDetail msg key] in
  (data !! "email" = None → reported "email" "required")
  ∧ (data !! "email" = Some JNull → reported "email" "null")
  ∧ (∀ e : string, data !! "email" = Some (JStr e) → strip e = "" →
       reported "email" "blank")
  ∧ (data !! "password" = None → reported "password" "required")
  ∧ (data !! "password" = Some JNull → reported "password" "null")
  ∧ (data !! "password" = Some (JStr "") → reported "password" "blank").
Proof.
  intros o reported. subst o reported. cbn beta.
  pose proof (collect_token_error_email db data) as Hemail.
  pose proof (collect_token_error_password db data) as Hpassword.
  rewrite token_email_result in Hemail.
  rewrite token_password_result in Hpassword.
  split_and!.
  - intros Hd. rewrite Hd in Hemail.
    destruct (token_field_error context _ _ _ _ Hemail) as (errors & -> & Hl).
    eauto.
  - intros Hd. rewrite Hd in Hemail.
    destruct (token_field_error context _ _ _ _ Hemail) as (errors & -> & Hl).
    eauto.
  - intros e Hd Hblank. rewrite Hd, (bool_decide_eq_true_2 _ Hblank) in Hemail.
    destruct (token_field_error context _ _ _ _ Hemail) as (errors & -> & Hl).
    eauto.
  - intros Hd. rewrite Hd in Hpassword.
    destruct (token_field_error context _ _ _ _ Hpassword) as (errors & -> & Hl).
    eauto.
  - intros Hd. rewrite Hd in Hpassword.
    destruct (token_field_error context _ _ _ _ Hpassword) as (errors & -> & Hl).
    eauto.
  - intros Hd. rewrite Hd in Hpassword.
    destruct (token_field_error context _ _ _ _ Hpassword) as (errors & -> & Hl).
    eauto.
Qed.


(** X4.  The data a token request validates to holds exactly three entries:
    under 'email' a string that is not empty and has no whitespace at either
    end, under 'password' a string that is not empty, and under 'user' the
    user [authenticate] resolved for these two.  For an email sent as a
    string the entry is that string stripped, for a password sent as a
    string it is that string as sent; whatever else the request carried is
    left out. *)
Theorem token_validated_data_shape (context : gmap string Request.t)
    (data : gmap string jsonval) (db : table)
    (validated_data : gmap string pyval) :
  result (run (AuthTokenSerializer.validated_data context data) db)
    = inr validated_data →
  ∃ (e p : string) (u : User.t),
    validated_data =
      {[ "email" := PyStr e; "password" := PyStr p; "user" := PyUser u ]}
    ∧ dom validated_data = {[ "email"; "password"; "user" ]}
    ∧ e ≠ "" ∧ strip e = e ∧ p ≠ ""
    ∧ authenticate db (context !! "request") (PyStr e) (PyStr p) = Some u
    ∧ (∀ e0 : string, data !! "email" = Some (JStr e0) → e = strip e0)
    ∧ (∀ p0 : string, data !! "password" = Some (JStr p0) → p = p0).
Proof.
  rewrite run_token_validated_data.
  destruct (decide _) as [Hempty|Hne]; cbn [result]; [|done].
  destruct (collect_token_valid db data Hempty)
    as (e & p & He & Hp & Hse & Hpe & ->).
  cbn [snd]. rewrite dict_get_email, dict_get_password.
  destruct (authenticate db _ _ _) as [u|] eqn:Hauth; [|done].
  intros [= <-]. exists (strip e), p, u.
  assert (Heq : <["user" := PyUser u]>
                  ({[ "email" := PyStr (strip e); "password" := PyStr p ]}
                     : gmap string pyval)
                = {[ "email" := PyStr (strip e); "password" := PyStr p;
                     "user" := PyUser u ]}) by reflexivity.
  rewrite Heq, He, Hp. split_and!; try done.
  - apply strip_idemp.
  - by intros e0 [= <-].
  - by intros p0 [= <-].
Qed.

(** X5.  The email of a token request counts up to surrounding whitespace:
    two requests whose emails strip to the same text, all else equal,
    validate alike, with the same call of [authenticate]; in particular an
    email may be replaced by its stripped form. *)
Theorem token_email_whitespace_insensitive (context : gmap string Request.t)
    (data : gmap string jsonval) (db : table) (e e' : string) :
  data !! "email" = Some (JStr e) →
  strip e' = strip e →
  run (AuthTokenSerializer.validated_data context (<["email" := JStr e']> data)) db
    = run (AuthTokenSerializer.validated_data context data) db
  ∧ run (AuthTokenSerializer.validated_data context
           (<["email" := JStr (strip e)]> data)) db
    = run (AuthTokenSerializer.validated_data context data) db.
Proof.
  intros He Hstrip.
  assert (Hsame : ∀ e'' : string, strip e'' = strip e →
    collect AuthTokenSerializer.fields false db None (<["email" := JStr e'']> data)
    = collect AuthTokenSerializer.fields false db None data).
  { intros e'' Hs. rewrite !collect_token.
    rewrite lookup_insert_eq, lookup_insert_ne by done.
    rewrite He, !token_email_result. by rewrite Hs. }
  split.
  - rewrite !run_token_validated_data. by rewrite (Hsame e' Hstrip).
  - rewrite !run_token_validated_data. by rewrite (Hsame _ (strip_idemp e)).
Qed.

(** X6.  Validating again what [AuthTokenSerializer.validate] returned gives
    the same result with the same call: the user already under 'user' is
    replaced by the one [authenticate] resolves for the unchanged email and
    password. *)
Theorem validate_idempotent (context : gmap string Request.t)
    (attrs res : gmap string pyval) (db : table) :
  result (run (AuthTokenSerializer.validate context attrs) db) = inr res →
  run (AuthTokenSerializer.validate context res) db
    = run (AuthTokenSerializer.validate context attrs) db.
Proof.
  unfold AuthTokenSerializer.validate. cbn [run logged result final calls].
  destruct (authenticate db (context !! "request") (dict_get attrs "email")
              (dict_get attrs "password")) as [u|] eqn:Hauth;
    cbn [truthy negb run result user_value]; [|done].
  intros [= <-]. unfold dict_get.
  rewrite !lookup_insert_ne by done. fold (dict_get attrs "email").
  fold (dict_get attrs "password"). rewrite Hauth.
  cbn [truthy negb run result final calls user_value].
  by rewrite insert_insert_eq.
Qed.
End TokenValidation.

(** ** Validating user data *)

Section UserData.
Context `{Collaborators} `{Declarations}.

(** A validated value comes from a declared field that accepted what the
    request holds under its name. *)
Lemma collect_valid_lookup fields partial db instance data key value :
  (collect fields partial db instance data).2 !! key = Some value →
  ∃ f, (key, f) ∈ fields
       ∧ run_validation f partial db instance (data !! key) = Valid value.
Proof.
  induction fields as [|[n' f'] fields IH]; simpl; [by rewrite lookup_empty|].
  destruct (collect fields partial db instance data) as [errors ret].
  simpl in IH.
  destruct (run_validation f' partial db instance (data !! n')) as [|e|v] eqn:Hf;
    simpl.
  - intros Hl. destruct (IH Hl) as (f & Hin & Hv). exists f. split; [|done].
    by apply elem_of_cons; right.
  - intros Hl. destruct (IH Hl) as (f & Hin & Hv). exists f. split; [|done].
    by apply elem_of_cons; right.
  - destruct (decide (n' = key)) as [->|Hne].
    + rewrite lookup_insert_eq. intros [= <-]. exists f'. split; [|done].
      by apply elem_of_cons; left.
    + rewrite lookup_insert_ne by done.
      intros Hl. destruct (IH Hl) as (f & Hin & Hv). exists f. split; [|done].
      by apply elem_of_cons; right.
Qed.

(** What a field of [UserSerializer] accepts is a string of the request,
    stripped and not blank; a password it accepts has 6 characters or
    more. *)
Lemma user_field_valid field_name f partial db instance d value :
  (field_name, f) ∈ UserSerializer.fields →
  run_validation f partial db instance d = Valid value →
  ∃ s : string,
    d = Some (JStr s) ∧ value = PyStr (strip s) ∧ strip s ≠ ""
    ∧ (field_name = "password" → (6 ≤ String.length (strip s))%nat).
Proof.
  rewrite UserSerializer_fields. intros Hin.
  assert (Hshape : trim_whitespace f = true ∧ allow_blank f = false
                   ∧ allow_null f = false
                   ∧ (field_name = "password" → min_length f = Some 6)).
  { repeat (apply elem_of_cons in Hin as [[= -> ->]|Hin]; [done|]).
    by apply elem_of_nil in Hin. }
  destruct Hshape as (Htrim & Hblank & Hnull & Hmin).
  unfold run_validation. rewrite Htrim, Hblank, Hnull.
  destruct d as [[|s]|]; [done| |by repeat case_match].
  cbn [andb]. rewrite blank_test. case_bool_decide as Hs; [done|].
  destruct (run_validators f db instance (strip s)) as [|err errs] eqn:Hv;
    [|done].
  intros [= <-]. exists s. split_and!; try done.
  intros Hpw. specialize (Hmin Hpw).
  unfold run_validators in Hv. rewrite Hmin in Hv.
  apply app_eq_nil in Hv as [_ Hv]. apply app_eq_nil in Hv as [_ Hv].
  apply app_eq_nil in Hv as [Hv _]. cbn [from_option] in Hv.
  unfold MinLengthValidator in Hv.
  destruct (Nat.ltb_spec (String.length (strip s)) 6); [done|lia].
Qed.

Lemma run_user_validated_data partial instance data db :
  run (UserSerializer.validated_data partial instance data) db =
    let c := collect UserSerializer.fields partial db instance data in
    if decide (c.1 = ∅) then mkOutcome (inr c.2) db []
    else mkOutcome (inl (ErrorDict c.1)) db [].
Proof.
  unfold UserSerializer.validated_data.
  rewrite run_Serializer_run_validation. cbn zeta.
  by destruct (decide _).
Qed.

(** X7.  The password field of [UserSerializer] measures the password once
    stripped: it rejects every password whose stripped form has fewer than 6
    characters, however long it was sent, and accepts, as stripped, every one
    with 6 or more that the other validators let through. *)
Theorem password_length_boundary (partial : bool) (db : table)
    (instance : option nat) (p : string) :
  ((String.length (strip p) < 6)%nat →
     ∃ errors,
       run_validation (UserSerializer.build_field "password") partial db
         instance (Some (JStr p)) = Invalid errors)
  ∧ ((6 ≤ String.length (strip p))%nat →
     model_validators "password" (strip p) = [] →
     char_validators (strip p) = [] →
     run_validation (UserSerializer.build_field "password") partial db
       instance (Some (JStr p)) = Valid (PyStr (strip p))).
Proof.
  rewrite build_field_password. unfold run_validation.
  cbn [trim_whitespace allow_blank andb]. rewrite blank_test. split.
  - intros Hlen. case_bool_decide; [by eexists|].
    eapply run_validators_invalid.
    unfold run_validators, MinLengthValidator. simpl.
    destruct (Nat.ltb_spec (String.length (strip p)) 6) as [_|Hge]; [|lia].
    rewrite !elem_of_app, elem_of_cons. eauto.
  - intros Hlen Hmodel Hchar.
    assert (strip p ≠ "") as Hne by (intros Heq; rewrite Heq in Hlen; simpl in Hlen; lia).
    rewrite (bool_decide_eq_false_2 _ Hne).
    unfold run_validators, MinLengthValidator. simpl.
    rewrite Hmodel, Hchar.
    destruct (Nat.ltb_spec (String.length (strip p)) 6) as [Hlt|_]; [lia|done].
Qed.

(** Every value [UserSerializer] has validated sits under the name of one
    of its fields. *)
Lemma user_validated_values partial instance data db key value :
  (collect UserSerializer.fields partial db instance data).2 !! key = Some value →
  key ∈ UserSerializer.Meta.fields
  ∧ ∃ s : string,
      data !! key = Some (JStr s) ∧ value = PyStr (strip s) ∧ strip s ≠ ""
      ∧ (key = "password" → (6 ≤ String.length (strip s))%nat).
Proof.
  intros Hl.
  destruct (collect_valid_lookup _ _ _ _ _ _ _ Hl) as (f & Hin & Hv).
  split; [|by eapply user_field_valid].
  rewrite UserSerializer_fields in Hin.
  repeat (apply elem_of_cons in Hin as [[= -> ->]|Hin]; [set_solver|]).
  by apply elem_of_nil in Hin.
Qed.

(** X8.  What [UserSerializer] validates, for a creation or for a partial
    update, is sound: its keys are among 'email', 'password' and 'name'
    (anything else the request carried is left out) and are keys of the
    request, every value is a string that is not empty and has no whitespace
    at either end (the stripped string, for a value sent as a string), and a
    validated password has 6 characters or more.  Validation calls no
    collaborator and leaves the table as it was. *)
Theorem user_validated_data_sound (partial : bool) (instance : option nat)
    (data : gmap string jsonval) (db : table)
    (validated_data : gmap string pyval) :
  result (run (UserSerializer.validated_data partial instance data) db)
    = inr validated_data →
  dom validated_data ⊆ {[ "email"; "password"; "name" ]}
  ∧ (∀ key value,
       validated_data !! key = Some value →
       is_Some (data !! key)
       ∧ ∃ v : string,
           value = PyStr v ∧ v ≠ "" ∧ strip v = v
           ∧ ∀ s : string, data !! key = Some (JStr s) → v = strip s)
  ∧ (∀ value,
       validated_data !! "password" = Some value →
       ∃ p : string, value = PyStr p ∧ (6 ≤ String.length p)%nat)
  ∧ calls (run (UserSerializer.validated_data partial instance data) db) = []
  ∧ final (run (UserSerializer.validated_data partial instance data) db) = db.
Proof.
  rewrite run_user_validated_data. cbn zeta.
  destruct (decide _) as [Hempty|Hne]; cbn [result calls final]; [|done].
  intros [= <-]. split_and!; try done.
  - intros key [value Hl]%elem_of_dom.
    destruct (user_validated_values _ _ _ _ _ _ Hl) as [Hin _].
    repeat (apply elem_of_cons in Hin as [->|Hin]; [set_solver|]).
    by apply elem_of_nil in Hin.
  - intros key value Hl.
    destruct (user_validated_values _ _ _ _ _ _ Hl)
      as (_ & s & Hd & -> & Hs & _).
    rewrite Hd. split; [eauto|].
    exists (strip s). split_and!; try done.
    + apply strip_idemp.
    + by intros s' [= <-].
  - intros value Hl.
    destruct (user_validated_values _ _ _ _ _ _ Hl)
      as (_ & s & Hd & Hv & Hs & Hlen).
    eauto.
Qed.

(** X9.  The representation of a user tells its email and its name and
    nothing more: two users have the same representation exactly when they
    have the same email and the same name, whatever their passwords. *)
Theorem representation_tells_email_and_name (u u' : User.t) :
  to_representation UserSerializer.fields u
    = to_representation UserSerializer.fields u'
  ↔ User.email u = User.email u' ∧ User.name u = User.name u'.
Proof.
  rewrite !to_representation_user. split.
  - intros Heq.
    pose proof (f_equal (λ m : gmap string pyval, m !! "email") Heq) as He.
    pose proof (f_equal (λ m : gmap string pyval, m !! "name") Heq) as Hn.
    simplify_map_eq. done.
  - by intros [-> ->].
Qed.
End UserData.

(** ** Validating, then creating *)

Section ValidateThenCreate.
Context `{Collaborators} `{Declarations}.

(** X11.  When the data of a request is validated by [UserSerializer] and
    then handed to its [create], [create_user] is called at most once, and
    only with the validated data: keywords among 'email', 'password' and
    'name', and a password, if any, of 6 characters or more.  A request that
    fails validation reaches no collaborator. *)
Theorem create_user_only_with_valid_data (data : gmap string jsonval)
    (db : table) :
  let o := run (UserSerializer.validated_data false None data
                  ≫= UserSerializer.create) db in
  (∀ kwargs, create_user_call kwargs ∈ calls o →
     result (run (UserSerializer.validated_data false None data) db) = inr kwargs
     ∧ calls o = [create_user_call kwargs]
     ∧ dom kwargs ⊆ {[ "email"; "password"; "name" ]}
     ∧ (∀ value, kwargs !! "password" = Some value →
          ∃ p : string, value = PyStr p ∧ (6 ≤ String.length p)%nat))
  ∧ (∀ exc,
       result (run (UserSerializer.validated_data false None data) db) = inl exc →
       o = mkOutcome (inl exc) db []).
Proof.
  intros o. subst o. rewrite run_bind.
  destruct (run (UserSerializer.validated_data false None data) db)
    as [[exc|validated_data] db' cs] eqn:Hrun; cbn [result final calls].
  - split; [|intros exc' [= <-]].
    + intros kwargs Hin.
      pose proof (f_equal calls Hrun) as Hcs. cbn [calls] in Hcs.
      rewrite run_user_validated_data in Hcs. cbn zeta in Hcs.
      destruct (decide _); cbn [calls] in Hcs; subst cs;
        by apply elem_of_nil in Hin.
    + pose proof (f_equal calls Hrun) as Hcs.
      pose proof (f_equal final Hrun) as Hdb.
      rewrite run_user_validated_data in Hcs, Hdb. cbn zeta in Hcs, Hdb.
      destruct (decide _); cbn [calls final] in Hcs, Hdb; by subst.
  - split; [|done].
    rewrite run_user_validated_data in Hrun. cbn zeta in Hrun.
    destruct (decide _) as [Hempty|Hne]; [|done].
    injection Hrun as <- <- <-.
    unfold UserSerializer.create. cbn [run logged result final calls app].
    intros kwargs Hin%list_elem_of_singleton. injection Hin as ->.
    split_and!; try done.
    + intros key [value Hl]%elem_of_dom.
      destruct (user_validated_values _ _ _ _ _ _ Hl) as [Hin _].
      repeat (apply elem_of_cons in Hin as [->|Hin]; [set_solver|]).
      by apply elem_of_nil in Hin.
    + intros value Hl.
      destruct (user_validated_values _ _ _ _ _ _ Hl)
        as (_ & s & Hd & Hv & Hs & Hlen).
      eauto.
Qed.
End ValidateThenCreate.

(** ** The update [UserSerializer] inherits *)

Section InheritedUpdate.
Context `{Collaborators} `{Declarations}.

Lemma update_assigns (validated_data : gmap string pyval) (instance : User.t)
    (field_name : string) :
  field_name ∈ UserSerializer.Meta.fields →
  getattr (foldl (assign validated_data) instance UserSerializer.fields)
    field_name
  = match validated_data !! field_name with
    | Some (PyStr s) => PyStr s
    | _ => getattr instance field_name
    end.
Proof.
  intros Hin. rewrite UserSerializer_fields. cbn [foldl].
  unfold assign, setattr. cbn [fst].
  repeat (apply elem_of_cons in Hin as [->|Hin];
          [destruct instance; repeat case_match; simplify_eq; done|]).
  by apply elem_of_nil in Hin.
Qed.

(** X10.  [UserSerializer] defines no [update], so an update is the generic
    one: every attribute the validated data names takes the validated string
    as it is, the password included; an attribute it does not name keeps its
    value; the instance is saved once, on its own row, and no other row and
    no other collaborator is touched. *)
Theorem inherited_update_assigns_verbatim (pk : nat) (instance : User.t)
    (validated_data : gmap string pyval) (db : table) :
  db !! pk = Some instance →
  let o := run (ModelSerializer_update UserSerializer.fields pk instance
                  validated_data) db in
  ∃ instance',
    result o = inr instance'
    ∧ calls o = [save_call pk instance']
    ∧ final o !! pk = Some instance'
    ∧ length (final o) = length db
    ∧ (∀ i, i ≠ pk → final o !! i = db !! i)
    ∧ (∀ field_name, field_name ∈ UserSerializer.Meta.fields →
         (∀ s : string, validated_data !! field_name = Some (PyStr s) →
            getattr instance' field_name = PyStr s)
         ∧ (validated_data !! field_name = None →
            getattr instance' field_name = getattr instance field_name)).
Proof.
  intros Hrow o. subst o. unfold ModelSerializer_update.
  cbn [run logged result calls final]. unfold save.
  eexists. split_and!; try done.
  - apply list_lookup_insert_eq. by eapply lookup_lt_Some.
  - apply length_insert.
  - intros i Hi. by apply list_lookup_insert_ne.
  - intros field_name Hin. rewrite (update_assigns _ _ _ Hin). split.
    + by intros s ->.
    + by intros ->.
Qed.
End InheritedUpdate.

(** ** The further properties, on the fixtures *)

Section FurtherWitnesses.
#[local] Existing Instance Fixture.collaborators.
#[local] Existing Instance Fixture.declarations.

(** The request of [test_create_token_for_user], its email padded. *)
Lemma authenticate_only_with_credentials_witness :
  let data : gmap string jsonval :=
    {[ "email" := JStr " test@gmail.com"; "password" := JStr "testpw1" ]} in
  let context : gmap string Request.t := ∅ in
  authenticate_call None (PyStr "test@gmail.com") (PyStr "testpw1")
    ∈ calls (run (AuthTokenSerializer.validated_data context data)
               [Fixture.stored_user])
  ∧ ∃ u : string,
      PyStr "test@gmail.com" = PyStr u ∧ u ≠ "" ∧ lstrip u = u ∧ rstrip u = u.
Proof.
  intros data context.
  assert (Hin : authenticate_call None (PyStr "test@gmail.com") (PyStr "testpw1")
                  ∈ calls (run (AuthTokenSerializer.validated_data context data)
                             [Fixture.stored_user]))
    by (apply list_elem_of_singleton; reflexivity).
  split; [exact Hin|].
  destruct (authenticate_only_with_credentials context data
              [Fixture.stored_user] _ _ _ Hin)
    as (_ & (u & Hu & Hne & Hl & Hr & _) & _).
  exists u. split_and!; [exact Hu | exact Hne | exact Hl | exact Hr].
Defined.

(** A token request with a blank email and an empty password. *)
Lemma token_field_errors_witness :
  let data : gmap string jsonval :=
    {[ "email" := JStr "  "; "password" := JStr "" ]} in
  ∃ errors msg,
    run (AuthTokenSerializer.validated_data ∅ data) [Fixture.stored_user]
      = mkOutcome (inl (ErrorDict errors)) [Fixture.stored_user] []
    ∧ errors !! "email" = Some [mkErrorDetail msg "blank"].
Proof.
  intros data.
  destruct (token_field_errors ∅ data [Fixture.stored_user])
    as (_ & _ & Hblank & _).
  apply (Hblank "  "); reflexivity.
Defined.

Lemma token_validated_data_shape_witness :
  let validated_data : gmap string pyval :=
    {[ "email" := PyStr "test@gmail.com"; "password" := PyStr "testpw1";
       "user" := PyUser Fixture.stored_user ]} in
  let data := <["remember" := JStr "yes"]> Fixture.credentials in
  result (run (AuthTokenSerializer.validated_data ∅ data) [Fixture.stored_user])
    = inr validated_data
  ∧ dom validated_data = {[ "email"; "password"; "user" ]}.
Proof.
  intros validated_data data.
  assert (Hres : result (run (AuthTokenSerializer.validated_data ∅ data)
                           [Fixture.stored_user]) = inr validated_data)
    by reflexivity.
  split; [exact Hres|].
  destruct (token_validated_data_shape ∅ data [Fixture.stored_user]
              validated_data Hres) as (e & p & u & _ & Hdom & _).
  exact Hdom.
Defined.

Lemma token_email_whitespace_insensitive_witness :
  let data : gmap string jsonval :=
    {[ "email" := JStr " test@gmail.com "; "password" := JStr "testpw1" ]} in
  data !! "email" = Some (JStr " test@gmail.com ")
  ∧ strip "test@gmail.com" = strip " test@gmail.com "
  ∧ run (AuthTokenSerializer.validated_data ∅
           (<["email" := JStr "test@gmail.com"]> data)) [Fixture.stored_user]
    = run (AuthTokenSerializer.validated_data ∅ data) [Fixture.stored_user].
Proof.
  intros data.
  destruct (token_email_whitespace_insensitive ∅ data [Fixture.stored_user]
              " test@gmail.com " "test@gmail.com" eq_refl eq_refl)
    as [Hsame _].
  split_and!; [reflexivity | reflexivity | exact Hsame].
Defined.

Lemma validate_idempotent_witness :
  let attrs : gmap string pyval :=
    {[ "email" := PyStr "test@gmail.com"; "password" := PyStr "testpw1" ]} in
  let res := <["user" := PyUser Fixture.stored_user]> attrs in
  result (run (AuthTokenSerializer.validate ∅ attrs) [Fixture.stored_user])
    = inr res
  ∧ run (AuthTokenSerializer.validate ∅ res) [Fixture.stored_user]
    = run (AuthTokenSerializer.validate ∅ attrs) [Fixture.stored_user].
Proof.
  intros attrs res.
  assert (Hres : result (run (AuthTokenSerializer.validate ∅ attrs)
                           [Fixture.stored_user]) = inr res)
    by reflexivity.
  split; [exact Hres|].
  exact (validate_idempotent ∅ attrs res [Fixture.stored_user] Hres).
Defined.

(** Eight characters sent, four left after stripping: rejected; six
    characters: accepted. *)
Lemma password_length_boundary_witness :
  (String.length (strip "  abcd  ") < 6)%nat
  ∧ (∃ errors,
       run_validation (UserSerializer.build_field "password") false [] None
         (Some (JStr "  abcd  ")) = Invalid errors)
  ∧ (6 ≤ String.length (strip "testpw"))%nat
  ∧ run_validation (UserSerializer.build_field "password") false [] None
      (Some (JStr "testpw")) = Valid (PyStr "testpw").
Proof.
  assert (Hshort : (String.length (strip "  abcd  ") < 6)%nat)
    by (vm_compute; lia).
  assert (Hlong : (6 ≤ String.length (strip "testpw"))%nat)
    by (vm_compute; lia).
  split_and!; [exact Hshort | | exact Hlong |].
  - exact (proj1 (password_length_boundary false [] None "  abcd  ") Hshort).
  - exact (proj2 (password_length_boundary false [] None "testpw") Hlong
             eq_refl eq_refl).
Defined.

(** The payload of [test_create_valid_user_successful] with one more key. *)
Lemma user_validated_data_sound_witness :
  let data := <["is_superuser" := JStr "true"]> Fixture.payload in
  let validated_data : gmap string pyval :=
    {[ "email" := PyStr "test@gmail.com"; "password" := PyStr "testpw1";
       "name" := PyStr "test_name" ]} in
  result (run (UserSerializer.validated_data false None data) [])
    = inr validated_data
  ∧ dom validated_data ⊆ {[ "email"; "password"; "name" ]}.
Proof.
  intros data validated_data.
  assert (Hres : result (run (UserSerializer.validated_data false None data) [])
                 = inr validated_data) by reflexivity.
  split; [exact Hres|].
  exact (proj1 (user_validated_data_sound false None data [] validated_data Hres)).
Defined.

(** The update of [test_update_user_profile], on its validated data. *)
Lemma inherited_update_assigns_verbatim_witness :
  let validated_data : gmap string pyval :=
    {[ "name" := PyStr "new name"; "password" := PyStr "newpassword1" ]} in
  [Fixture.stored_user] !! 0 = Some Fixture.stored_user
  ∧ ∃ instance',
      result (run (ModelSerializer_update UserSerializer.fields 0
                     Fixture.stored_user validated_data) [Fixture.stored_user])
        = inr instance'
      ∧ getattr instance' "password" = PyStr "newpassword1"
      ∧ getattr instance' "email" = getattr Fixture.stored_user "email".
Proof.
  intros validated_data.
  split; [reflexivity|].
  destruct (inherited_update_assigns_verbatim 0 Fixture.stored_user
              validated_data [Fixture.stored_user] eq_refl)
    as (instance' & Hres & _ & _ & _ & _ & Hattr).
  exists instance'. split_and!.
  - exact Hres.
  - apply (Hattr "password"); [|reflexivity].
    apply elem_of_cons; right; apply elem_of_cons; left; reflexivity.
  - apply (Hattr "email"); [|reflexivity].
    apply elem_of_cons; left; reflexivity.
Defined.
(** The request of [test_password_too_short] reaches no collaborator. *)
Lemma create_user_only_with_valid_data_witness :
  ∃ exc,
    run (UserSerializer.validated_data false None Fixture.too_short
           ≫= UserSerializer.create) []
    = mkOutcome (inl exc) [] [].
Proof.
  destruct (create_user_only_with_valid_data Fixture.too_short []) as [_ Hfail].
  eexists. apply Hfail. reflexivity.
Defined.
End FurtherWitnesses.
